(** * FibreLaserController: a shallow embedding of the Teensy sketch

    The sketch [FibreLaserController.ino] drives a Raycus fibre laser through
    its DB25 port.  This file embeds the sketch as state-passing functions over
    a record holding the globals of the sketch, the level of every pin and a
    time-stamped log of every actuation, and proves properties of the mode
    state machine, of the two encoders and of the two timer callbacks.

    Conventions of the model:
    - integers are [Z]; a [uint8_t] store is written with its wrap-around
      ([uint8]);
    - [float] is IEEE-754 binary32 and [double] is binary64, both computed
      with the Standard Library's [SpecFloat] (round to nearest, ties to
      even), following the C++ types as they are written in the sketch;
    - the only thing that advances the clock [millis] is [delay]; the
      separation between two log entries is therefore the time the sketch
      itself guarantees by blocking;
    - everything the sketch reads from outside during one pass of [loop]
      (alarm lines, debounced switches, dial, the serial Metro) is read at
      most once per pass, so one [inputs] record per pass is exact. *)

From Stdlib Require Import ZArith QArith Qabs Qround List String Bool Lia.
From Stdlib Require Import Floats.SpecFloat.
Import ListNotations.
Open Scope Z_scope.

(* ------------------------------------------------------------------ *)
(** ** Pin definitions (the [#define]s of the sketch) *)

Definition ActionSwitchPin1 : Z := 1.
Definition ActionSwitchPin2 : Z := 2.
Definition ExternalLEDPin : Z := 3.
Definition AlarmLSBPin : Z := 4.
Definition AlarmMSBPin : Z := 5.
Definition LaserPowerBit0Pin : Z := 6.
Definition LaserPowerBit1Pin : Z := 7.
Definition LaserPowerBit2Pin : Z := 8.
Definition LaserPowerBit3Pin : Z := 9.
Definition LaserPowerBit4Pin : Z := 10.
Definition LaserPowerBit5Pin : Z := 11.
Definition LaserPowerBit6Pin : Z := 12.
Definition InternalLEDPin : Z := 13.
Definition LaserPowerBit7Pin : Z := 14.
Definition LaserMOSignalPin : Z := 15.
Definition LaserONSignalPin : Z := 16.
Definition LaserPulsesPin : Z := 17.
Definition LaserGuidePin : Z := 18.
Definition LaserTriggerPin : Z := 22.
(** [A9] and [A14] are board aliases: 23 and 40 on the Teensy 3.1/3.2. *)
Definition DialInputPin : Z := 23.
Definition DisplayOutputPin : Z := 40.

(* ------------------------------------------------------------------ *)
(** ** Levels *)

Inductive level := LOW | HIGH.

Definition level_eqb (a b : level) : bool :=
  match a, b with
  | LOW, LOW | HIGH, HIGH => true
  | _, _ => false
  end.

Definition toggle (l : level) : level :=
  match l with LOW => HIGH | HIGH => LOW end.

(** A [uint8_t] store. *)
Definition uint8 (z : Z) : Z := z mod 256.

Definition b2z (b : bool) : Z := if b then 1 else 0.

(* ------------------------------------------------------------------ *)
(** ** Floating point: binary32 and binary64 through [SpecFloat] *)

Module F32.
Definition prec : Z := 24.
Definition emax : Z := 128.
Definition of_int (z : Z) : spec_float := binary_normalize prec emax z 0 false.
Definition mul := SFmul prec emax.
Definition div := SFdiv prec emax.
Definition add := SFadd prec emax.
End F32.

Module F64.
Definition prec : Z := 53.
Definition emax : Z := 1024.
Definition of_int (z : Z) : spec_float := binary_normalize prec emax z 0 false.
Definition mul := SFmul prec emax.
Definition div := SFdiv prec emax.
Definition add := SFadd prec emax.
(** A decimal literal [n / 10^k] with [n] and [10^k] below [2^53]: both are
    exact doubles and the division is correctly rounded, so the quotient is
    the double nearest to the decimal, which is what the compiler stores. *)
Definition literal (n d : Z) : spec_float := div (of_int n) (of_int d).
End F64.

(** [(float)x] for a double [x], and the implicit [float -> double]. *)
Definition double_to_float (x : spec_float) : spec_float :=
  match x with
  | S754_finite s m e => binary_round F32.prec F32.emax s m e
  | _ => x
  end.

Definition float_to_double (x : spec_float) : spec_float :=
  match x with
  | S754_finite s m e => binary_round F64.prec F64.emax s m e
  | _ => x
  end.

(** [(int)x]: the fractional part is discarded; the conversion is undefined
    ([None]) for NaN, the infinities and values outside the 32-bit [int]. *)
Definition float_to_int (x : spec_float) : option Z :=
  match x with
  | S754_zero _ => Some 0
  | S754_finite s m e =>
      let mag := if 0 <=? e then Z.shiftl (Zpos m) e else Z.shiftr (Zpos m) (- e) in
      let z := if s then - mag else mag in
      if (- 2147483648 <=? z) && (z <=? 2147483647) then Some z else None
  | _ => None
  end.

(** The rational a finite float stands for. *)
Definition SF2Q (x : spec_float) : Q :=
  match x with
  | S754_finite s m e =>
      let n := if s then Zneg m else Zpos m in
      if 0 <=? e then inject_Z (n * 2 ^ e) else Qmake n (Z.to_pos (2 ^ (- e)))
  | _ => 0%Q
  end.

Definition is_finite (x : spec_float) : bool :=
  match x with
  | S754_zero _ | S754_finite _ _ _ => true
  | _ => false
  end.

(* ------------------------------------------------------------------ *)
(** ** What the sketch reads from outside during one pass of [loop] *)

Record inputs := mkInputs {
  AlarmLSB : level;        (* level on pin 4 *)
  AlarmMSB : level;        (* level on pin 5 *)
  ActionBounce1 : level;   (* ActionBounce1.read() after update() *)
  ActionBounce2 : level;   (* ActionBounce2.read() after update() *)
  Dial : Z;                (* analogRead(DialInputPin) *)
  serialMetro : bool       (* serialMetro.check() == 1 *)
}.

(* ------------------------------------------------------------------ *)
(** ** The log of actuations *)

Inductive event :=
| EvWrite (pin : Z) (l : level)             (* digitalWriteFast *)
| EvDelay (ms : Z)                          (* delay *)
| EvGate (v : Z)                            (* EnableLaserTrigger = v *)
| EvAnalogWrite (pin : Z) (v : option Z)    (* analogWrite *)
| EvPulseTimerBegin (us : spec_float)       (* LaserPulseTimer.begin *)
| EvFlashTimerBegin (us : Z)                (* AlarmLEDFlashTimer.begin *)
| EvSerial (alarm : string) (power mode : Z).

Record stamped := at_ms { stamp : Z; ev : event }.

(* ------------------------------------------------------------------ *)
(** ** The state: globals of the sketch, pins, timers, clock and log *)

Record state := mkState {
  env : inputs;
  pins : Z -> level;
  Display : option Z;                    (* last value given to analogWrite(A14) *)
  LaserPulseTimer : option spec_float;   (* period in microseconds once begun *)
  AlarmLEDFlashTimer : option Z;         (* period in microseconds once begun *)
  LaserPulsePeriod : spec_float;
  OperatingMode : Z;
  EnableLaserTrigger : Z;
  LaserPower : Z;
  AlarmState : string;
  millis : Z;
  trace : list stamped
}.

Definition DisplayMultiplier : spec_float :=
  double_to_float (F64.literal 1240909 1000000).

(** The log of [s] extended with [e], stamped with the clock of [s]. *)
Abbreviation log e s := (trace s ++ [at_ms (millis s) e]) (only parsing).

(** Sequencing of two statements. *)
Definition seq (f g : state -> state) : state -> state := fun s => g (f s).
Notation "f ;; g" := (seq f g) (at level 61, left associativity).

(* ------------------------------------------------------------------ *)
(** ** Platform primitives *)

Definition digitalWriteFast (pin : Z) (l : level) (s : state) : state :=
  mkState (env s) (fun q => if q =? pin then l else pins s q) (Display s)
          (LaserPulseTimer s) (AlarmLEDFlashTimer s) (LaserPulsePeriod s)
          (OperatingMode s) (EnableLaserTrigger s) (LaserPower s) (AlarmState s)
          (millis s) (log (EvWrite pin l) s).

(** Input lines are driven from outside; every other pin reads back the
    level last written to it. *)
Definition digitalReadFast (pin : Z) (s : state) : level :=
  if pin =? AlarmLSBPin then AlarmLSB (env s)
  else if pin =? AlarmMSBPin then AlarmMSB (env s)
  else pins s pin.

Definition analogRead (pin : Z) (s : state) : Z := Dial (env s).

Definition analogWrite (pin : Z) (v : option Z) (s : state) : state :=
  mkState (env s) (pins s) v
          (LaserPulseTimer s) (AlarmLEDFlashTimer s) (LaserPulsePeriod s)
          (OperatingMode s) (EnableLaserTrigger s) (LaserPower s) (AlarmState s)
          (millis s) (log (EvAnalogWrite pin v) s).

Definition delay (ms : Z) (s : state) : state :=
  mkState (env s) (pins s) (Display s)
          (LaserPulseTimer s) (AlarmLEDFlashTimer s) (LaserPulsePeriod s)
          (OperatingMode s) (EnableLaserTrigger s) (LaserPower s) (AlarmState s)
          (millis s + ms) (log (EvDelay ms) s).

Definition LaserPulseTimer_begin (us : spec_float) (s : state) : state :=
  mkState (env s) (pins s) (Display s)
          (Some us) (AlarmLEDFlashTimer s) (LaserPulsePeriod s)
          (OperatingMode s) (EnableLaserTrigger s) (LaserPower s) (AlarmState s)
          (millis s) (log (EvPulseTimerBegin us) s).

Definition AlarmLEDFlashTimer_begin (us : Z) (s : state) : state :=
  mkState (env s) (pins s) (Display s)
          (LaserPulseTimer s) (Some us) (LaserPulsePeriod s)
          (OperatingMode s) (EnableLaserTrigger s) (LaserPower s) (AlarmState s)
          (millis s) (log (EvFlashTimerBegin us) s).

(** [pinMode] only fixes a direction, which the model does not track. *)
Definition pinMode (pin : Z) (mode : string) (s : state) : state := s.

(* ------------------------------------------------------------------ *)
(** ** Assignments to the globals *)

Definition set_env (io : inputs) (s : state) : state :=
  mkState io (pins s) (Display s)
          (LaserPulseTimer s) (AlarmLEDFlashTimer s) (LaserPulsePeriod s)
          (OperatingMode s) (EnableLaserTrigger s) (LaserPower s) (AlarmState s)
          (millis s) (trace s).

Definition set_LaserPulsePeriod (p : spec_float) (s : state) : state :=
  mkState (env s) (pins s) (Display s)
          (LaserPulseTimer s) (AlarmLEDFlashTimer s) p
          (OperatingMode s) (EnableLaserTrigger s) (LaserPower s) (AlarmState s)
          (millis s) (trace s).

Definition set_OperatingMode (m : Z) (s : state) : state :=
  mkState (env s) (pins s) (Display s)
          (LaserPulseTimer s) (AlarmLEDFlashTimer s) (LaserPulsePeriod s)
          (uint8 m) (EnableLaserTrigger s) (LaserPower s) (AlarmState s)
          (millis s) (trace s).

Definition set_EnableLaserTrigger (v : Z) (s : state) : state :=
  mkState (env s) (pins s) (Display s)
          (LaserPulseTimer s) (AlarmLEDFlashTimer s) (LaserPulsePeriod s)
          (OperatingMode s) (uint8 v) (LaserPower s) (AlarmState s)
          (millis s) (log (EvGate (uint8 v)) s).

Definition set_LaserPower (v : Z) (s : state) : state :=
  mkState (env s) (pins s) (Display s)
          (LaserPulseTimer s) (AlarmLEDFlashTimer s) (LaserPulsePeriod s)
          (OperatingMode s) (EnableLaserTrigger s) (uint8 v) (AlarmState s)
          (millis s) (trace s).

Definition set_AlarmState (a : string) (s : state) : state :=
  mkState (env s) (pins s) (Display s)
          (LaserPulseTimer s) (AlarmLEDFlashTimer s) (LaserPulsePeriod s)
          (OperatingMode s) (EnableLaserTrigger s) (LaserPower s) a
          (millis s) (trace s).

(* ------------------------------------------------------------------ *)
(** ** The sketch *)

(** Globals as their initialisers leave them, before [setup] has run; the
    pins hold whatever the board powers up with. *)
Definition power_on (p0 : Z -> level) (io : inputs) : state :=
  mkState io p0 None None None
          (double_to_float (F64.literal 125 10))   (* LaserPulsePeriod = 12.5 *)
          7                                        (* OperatingMode = 7 *)
          0                                        (* EnableLaserTrigger = 0 *)
          0                                        (* LaserPower = 0 *)
          "NONE"%string                            (* AlarmState = "NONE" *)
          0 [].

(** [void DisplayOutput(float Value)] *)
Definition DisplayOutput (Value : spec_float) (s : state) : state :=
  let Value := F32.mul Value DisplayMultiplier in
  analogWrite DisplayOutputPin (float_to_int Value) s.

(** [void LaserPulseGenerator(void)]: callback of [LaserPulseTimer]. *)
Definition LaserPulseGenerator (s : state) : state :=
  let s :=
    if level_eqb (digitalReadFast LaserPulsesPin s) HIGH
    then digitalWriteFast LaserPulsesPin LOW s
    else digitalWriteFast LaserPulsesPin HIGH s in
  if EnableLaserTrigger s =? 0
  then digitalWriteFast LaserONSignalPin HIGH s
  else digitalWriteFast LaserONSignalPin LOW s.

(** [void AlarmLEDFlasher(void)]: callback of [AlarmLEDFlashTimer]. *)
Definition AlarmLEDFlasher (s : state) : state :=
  if level_eqb (digitalReadFast ExternalLEDPin s) HIGH
  then digitalWriteFast ExternalLEDPin LOW s
  else digitalWriteFast ExternalLEDPin HIGH s.

(** [void setup()].  [Serial.begin], [analogWriteResolution],
    [analogReadResolution], [analogReference] and the debouncer set-up leave
    the modelled state alone. *)
Definition setup : state -> state :=
  pinMode ActionSwitchPin1 "INPUT_PULLUP" ;;
  pinMode ActionSwitchPin2 "INPUT_PULLUP" ;;
  pinMode ExternalLEDPin "OUTPUT" ;;
  digitalWriteFast ExternalLEDPin LOW ;;
  pinMode AlarmLSBPin "INPUT" ;;
  pinMode AlarmMSBPin "INPUT" ;;
  pinMode LaserPowerBit0Pin "OUTPUT" ;;
  digitalWriteFast LaserPowerBit0Pin HIGH ;;
  pinMode LaserPowerBit1Pin "OUTPUT" ;;
  digitalWriteFast LaserPowerBit1Pin HIGH ;;
  pinMode LaserPowerBit2Pin "OUTPUT" ;;
  digitalWriteFast LaserPowerBit2Pin HIGH ;;
  pinMode LaserPowerBit3Pin "OUTPUT" ;;
  digitalWriteFast LaserPowerBit3Pin HIGH ;;
  pinMode LaserPowerBit4Pin "OUTPUT" ;;
  digitalWriteFast LaserPowerBit4Pin HIGH ;;
  pinMode LaserPowerBit5Pin "OUTPUT" ;;
  digitalWriteFast LaserPowerBit5Pin HIGH ;;
  pinMode LaserPowerBit6Pin "OUTPUT" ;;
  digitalWriteFast LaserPowerBit6Pin HIGH ;;
  pinMode LaserPowerBit7Pin "OUTPUT" ;;
  digitalWriteFast LaserPowerBit7Pin HIGH ;;
  pinMode InternalLEDPin "OUTPUT" ;;
  digitalWriteFast InternalLEDPin LOW ;;
  pinMode LaserMOSignalPin "OUTPUT" ;;
  digitalWriteFast LaserMOSignalPin HIGH ;;
  pinMode LaserONSignalPin "OUTPUT" ;;
  digitalWriteFast LaserONSignalPin HIGH ;;
  pinMode LaserPulsesPin "OUTPUT" ;;
  digitalWriteFast LaserPulsesPin HIGH ;;
  pinMode LaserGuidePin "OUTPUT" ;;
  digitalWriteFast LaserGuidePin LOW ;;
  pinMode LaserTriggerPin "INPUT_PULLUP" ;;
  pinMode DisplayOutputPin "OUTPUT" ;;
  pinMode DialInputPin "INPUT" ;;
  (fun s => LaserPulseTimer_begin (LaserPulsePeriod s) s).

(** [void SerialOutputFunction(uint8_t Mode)] *)
Definition SerialOutputFunction (Mode : Z) (s : state) : state :=
  mkState (env s) (pins s) (Display s)
          (LaserPulseTimer s) (AlarmLEDFlashTimer s) (LaserPulsePeriod s)
          (OperatingMode s) (EnableLaserTrigger s) (LaserPower s) (AlarmState s)
          (millis s) (log (EvSerial (AlarmState s) (LaserPower s) Mode) s).

(** [uint8_t GetModeFunction(uint8_t CurrentMode)].  The three alarm
    [return]s leave before the switches are looked at; only the branch with
    the empty body falls through to the code after the alarm test. *)
Definition GetModeFunction (CurrentMode : Z) (s : state) : Z * state :=
  if level_eqb (digitalReadFast AlarmLSBPin s) HIGH then
    if level_eqb (digitalReadFast AlarmMSBPin s) HIGH
    then (5, s)
    else (4, s)
  else
    if level_eqb (digitalReadFast AlarmMSBPin s) HIGH then
      let NewMode :=
        if level_eqb (ActionBounce1 (env s)) LOW then 0
        else if level_eqb (ActionBounce2 (env s)) LOW then 2
        else 1 in
      let s :=
        if negb (Z.land (b2z (NewMode =? 0))
                        (Z.lor (b2z (CurrentMode =? 1)) (b2z (CurrentMode =? 2)))
                 =? 0)
        then (digitalWriteFast LaserMOSignalPin LOW ;;
              delay 5 ;;
              digitalWriteFast LaserONSignalPin LOW) s
        else s in
      (NewMode, s)
    else (3, s).

(** One of the eight copies of the [if (TemporaryLaserPower >= w)] block of
    [SetPowerLevel]: the pair carries the state and [TemporaryLaserPower]. *)
Definition power_bit (pin w : Z) (st : state * Z) : state * Z :=
  let '(s, TemporaryLaserPower) := st in
  if TemporaryLaserPower >=? w
  then (digitalWriteFast pin LOW s, uint8 (TemporaryLaserPower - w))
  else (digitalWriteFast pin HIGH s, TemporaryLaserPower).

(** [void SetPowerLevel(void)] *)
Definition SetPowerLevel (s : state) : state :=
  let s := set_LaserPower (analogRead DialInputPin s) s in
  let s := DisplayOutput
             (double_to_float
                (F64.mul (F64.literal 117641 100000)
                         (float_to_double (F32.of_int (LaserPower s))))) s in
  let st := (s, LaserPower s) in
  let st := power_bit LaserPowerBit7Pin 128 st in
  let st := power_bit LaserPowerBit6Pin 64 st in
  let st := power_bit LaserPowerBit5Pin 32 st in
  let st := power_bit LaserPowerBit4Pin 16 st in
  let st := power_bit LaserPowerBit3Pin 8 st in
  let st := power_bit LaserPowerBit2Pin 4 st in
  let st := power_bit LaserPowerBit1Pin 2 st in
  let st := power_bit LaserPowerBit0Pin 1 st in
  fst st.

(** [float Frequency = (0.156863 * PulseFrequency) + 25]: the product and the
    sum are computed in [double] and the result is stored in a [float]. *)
Definition Frequency_of (PulseFrequency : Z) : spec_float :=
  double_to_float
    (F64.add (F64.mul (F64.literal 156863 1000000) (F64.of_int PulseFrequency))
             (F64.of_int 25)).

(** [void SetPulseRate(void)] *)
Definition SetPulseRate (s : state) : state :=
  let PulseFrequency := uint8 (analogRead DialInputPin s) in
  let Frequency := Frequency_of PulseFrequency in
  (set_LaserPulsePeriod (F32.div (F32.of_int 500) Frequency) ;;
   (fun s => LaserPulseTimer_begin (LaserPulsePeriod s) s) ;;
   DisplayOutput (F32.mul Frequency (F32.of_int 10))) s.

(** [void AlarmActions(uint8_t Mode)] *)
Definition AlarmActions (Mode : Z) : state -> state :=
  AlarmLEDFlashTimer_begin 1000000 ;;
  DisplayOutput (F32.of_int 0) ;;
  set_EnableLaserTrigger 0 ;;
  digitalWriteFast LaserONSignalPin HIGH ;;
  delay 1 ;;
  digitalWriteFast LaserMOSignalPin HIGH ;;
  (if Mode =? 3 then set_AlarmState "Temperature"
   else if Mode =? 4 then set_AlarmState "High Reflection"
   else if Mode =? 5 then set_AlarmState "MO"
   else set_AlarmState "Reserved Mode").

(** [void ModeRunFunction(uint8_t Mode)] *)
Definition ModeRunFunction (Mode : Z) : state -> state :=
  if Mode =? 0 then
    digitalWriteFast LaserMOSignalPin LOW ;;
    digitalWriteFast LaserONSignalPin LOW ;;
    SetPowerLevel ;;
    digitalWriteFast ExternalLEDPin HIGH
  else if Mode =? 1 then
    set_EnableLaserTrigger 0 ;;
    digitalWriteFast LaserONSignalPin HIGH ;;
    delay 1 ;;
    digitalWriteFast LaserMOSignalPin HIGH ;;
    SetPowerLevel ;;
    digitalWriteFast ExternalLEDPin LOW
  else if Mode =? 2 then
    set_EnableLaserTrigger 0 ;;
    digitalWriteFast LaserONSignalPin HIGH ;;
    delay 1 ;;
    digitalWriteFast LaserMOSignalPin HIGH ;;
    SetPulseRate ;;
    digitalWriteFast ExternalLEDPin LOW
  else if Mode =? 3 then AlarmActions Mode
  else if Mode =? 4 then AlarmActions Mode
  else if Mode =? 5 then AlarmActions Mode
  else AlarmActions Mode.

(** [void loop()]: one pass.  [ActionBounce1.update()] and
    [ActionBounce2.update()] refresh the debounced levels held in [env]. *)
Definition loop (s : state) : state :=
  let s :=
    if serialMetro (env s) then
      let s := SerialOutputFunction (OperatingMode s) s in
      if level_eqb (digitalReadFast InternalLEDPin s) HIGH
      then digitalWriteFast InternalLEDPin LOW s
      else digitalWriteFast InternalLEDPin HIGH s
    else s in
  let '(m, s) := GetModeFunction (OperatingMode s) s in
  let s := set_OperatingMode m s in
  ModeRunFunction (OperatingMode s) s.

(** One pass of [loop] with the outside world as [io] sees it. *)
Definition cycle (io : inputs) (s : state) : state := loop (set_env io s).

(* ------------------------------------------------------------------ *)
(** ** Executions

    The pulse and flasher callbacks are interrupt driven: they run between
    passes of [loop] once their timer has been begun. *)

Inductive step : state -> state -> Prop :=
| step_loop (io : inputs) (s : state) :
    step s (cycle io s)
| step_pulse (s : state) :
    LaserPulseTimer s <> None -> step s (LaserPulseGenerator s)
| step_flash (s : state) :
    AlarmLEDFlashTimer s <> None -> step s (AlarmLEDFlasher s).

Inductive reachable : state -> Prop :=
| reach_setup (p0 : Z -> level) (io : inputs) :
    reachable (setup (power_on p0 io))
| reach_step (s s' : state) :
    reachable s -> step s s' -> reachable s'.

(* ------------------------------------------------------------------ *)
(** ** Vocabulary of the properties *)

(** The discrete output that carries bit [i] of the power level. *)
Definition LaserPowerBitPin (i : Z) : Z :=
  match i with
  | 0 => LaserPowerBit0Pin
  | 1 => LaserPowerBit1Pin
  | 2 => LaserPowerBit2Pin
  | 3 => LaserPowerBit3Pin
  | 4 => LaserPowerBit4Pin
  | 5 => LaserPowerBit5Pin
  | 6 => LaserPowerBit6Pin
  | _ => LaserPowerBit7Pin
  end.

(** The mode the three-position switch asks for. *)
Definition switch_mode (sw1 sw2 : level) : Z :=
  match sw1, sw2 with
  | LOW, _ => 0
  | HIGH, LOW => 2
  | HIGH, HIGH => 1
  end.

(** The four log entries of a shutdown that starts at time [t]. *)
Definition shutdown_sequence (t : Z) : list stamped :=
  [ at_ms t (EvGate 0);
    at_ms t (EvWrite LaserONSignalPin HIGH);
    at_ms t (EvDelay 1);
    at_ms (t + 1) (EvWrite LaserMOSignalPin HIGH) ].

(** A log entry that touches neither enable line, nor the gate, nor the
    clock. *)
Definition quiet (e : stamped) : Prop :=
  match ev e with
  | EvWrite pin _ => pin <> LaserMOSignalPin /\ pin <> LaserONSignalPin
  | EvDelay _ | EvGate _ => False
  | _ => True
  end.

(** The manual's start-up rule as a monitor over the log: the ON line may go
    from de-asserted to asserted only while the MO line is asserted and has
    been for at least 5 ms.  The monitor carries the time at which MO was
    asserted ([None] while it is de-asserted) and the level of ON. *)
Fixpoint startup_monitor (mo_since : option Z) (on : level) (tr : list stamped)
  : bool :=
  match tr with
  | [] => true
  | e :: tr' =>
      match ev e with
      | EvWrite pin l =>
          if pin =? LaserMOSignalPin then
            match l, mo_since with
            | LOW, None => startup_monitor (Some (stamp e)) on tr'
            | LOW, Some _ => startup_monitor mo_since on tr'
            | HIGH, _ => startup_monitor None on tr'
            end
          else if pin =? LaserONSignalPin then
            match l, on with
            | LOW, HIGH =>
                match mo_since with
                | Some t0 => (t0 + 5 <=? stamp e) && startup_monitor mo_since LOW tr'
                | None => false
                end
            | _, _ => startup_monitor mo_since l tr'
            end
          else startup_monitor mo_since on tr'
      | _ => startup_monitor mo_since on tr'
      end
  end.

(** The log of an execution respects the start-up rule; both lines are
    de-asserted when the sketch starts. *)
Definition startup_respected (s : state) : bool :=
  startup_monitor None HIGH (trace s).

(** Rounding to the nearest integer, halves away from zero, as [round]
    does. *)
Definition round_nearest (q : Q) : Z :=
  if Qle_bool 0 q then Qfloor (q + (1 # 2)) else Qceiling (q - (1 # 2)).

(** Everything of a state but its clock and its log. *)
Definition same_outputs (a b : state) : Prop :=
  env a = env b /\
  (forall p, pins a p = pins b p) /\
  Display a = Display b /\
  LaserPulseTimer a = LaserPulseTimer b /\
  AlarmLEDFlashTimer a = AlarmLEDFlashTimer b /\
  LaserPulsePeriod a = LaserPulsePeriod b /\
  OperatingMode a = OperatingMode b /\
  EnableLaserTrigger a = EnableLaserTrigger b /\
  LaserPower a = LaserPower b /\
  AlarmState a = AlarmState b.

(** The label [AlarmActions] stores for a mode. *)
Definition alarm_label (Mode : Z) : string :=
  if Mode =? 3 then "Temperature"
  else if Mode =? 4 then "High Reflection"
  else if Mode =? 5 then "MO"
  else "Reserved Mode".

(** What a shutdown leaves behind, for every function that performs one. *)
Definition shuts_down (f : state -> state) : Prop :=
  forall s,
    exists pre post,
      trace (f s) = trace s ++ pre ++ shutdown_sequence (millis s) ++ post
      /\ Forall quiet pre
      /\ Forall quiet post
      /\ EnableLaserTrigger (f s) = 0
      /\ pins (f s) LaserONSignalPin = HIGH
      /\ pins (f s) LaserMOSignalPin = HIGH
      /\ OperatingMode (f s) = OperatingMode s.

(** A log entry that, if it assigns the gate, assigns 0. *)
Definition gate_zero (e : stamped) : Prop :=
  forall v, ev e = EvGate v -> v = 0.

(** The value of [EnableLaserTrigger] after the part [tr] of the log, from its
    initial 0: the last value assigned in [tr]. *)
Definition gate_after (tr : list stamped) : Z :=
  fold_left (fun g e => match ev e with EvGate v => v | _ => g end) tr 0.

(** The gate is closed and has never been opened. *)
Definition gate_closed (s : state) : Prop :=
  EnableLaserTrigger s = 0 /\ Forall gate_zero (trace s).

(** Truncation toward zero of a rational. *)
Definition Qtruncate (q : Q) : Z := Z.quot (Qnum q) (Zpos (Qden q)).

(** The value of [x] truncated toward zero when [x] is finite and that
    integer fits a 32-bit [int]; nothing otherwise. *)
Definition truncated (x : spec_float) : option Z :=
  if is_finite x
     && (- 2147483648 <=? Qtruncate (SF2Q x))
     && (Qtruncate (SF2Q x) <=? 2147483647)
  then Some (Qtruncate (SF2Q x))
  else None.

(** The frequency law of the sketch over the rationals. *)
Definition exact_frequency (r : Z) : Q := (156863 # 1000000) * inject_Z r + 25.

(** The accuracy of the computed frequency and half-period for a reading
    [r]: the frequency is within 4e-6 of the exact law, and the half-period
    times the frequency is within 1e-4 of 500. *)
Definition pulse_rate_accurate (r : Z) : bool :=
  let f := Frequency_of r in
  let half := F32.div (F32.of_int 500) f in
  is_finite f && is_finite half
  && Qle_bool (Qabs (SF2Q f - exact_frequency r)) (4 # 1000000)
  && Qle_bool (Qabs (SF2Q half * SF2Q f - 500)) (1 # 10000).

(** The first statement of [loop]: when the serial Metro is due, the debug
    report and the toggling of the on-board LED. *)
Definition heartbeat (s : state) : state :=
  if serialMetro (env s) then
    let s := SerialOutputFunction (OperatingMode s) s in
    if level_eqb (digitalReadFast InternalLEDPin s) HIGH
    then digitalWriteFast InternalLEDPin LOW s
    else digitalWriteFast InternalLEDPin HIGH s
  else s.

(** The mode the alarm lines and the switch ask for. *)
Definition derived_mode (io : inputs) : Z :=
  match AlarmLSB io, AlarmMSB io with
  | HIGH, HIGH => 5
  | HIGH, LOW => 4
  | LOW, LOW => 3
  | LOW, HIGH => switch_mode (ActionBounce1 io) (ActionBounce2 io)
  end.

(** The power level the laser reads on its eight active-low inputs. *)
Definition decode_power (p : Z -> level) : Z :=
  fold_right
    (fun i acc => acc + if level_eqb (p (LaserPowerBitPin i)) LOW then 2 ^ i else 0)
    0 [0; 1; 2; 3; 4; 5; 6; 7].

(** The value of the low eight bits of [w]. *)
Definition bits_sum (w : Z) : Z :=
  fold_right
    (fun i acc => acc + if Z.testbit w i then 2 ^ i else 0)
    0 [0; 1; 2; 3; 4; 5; 6; 7].

(** The time one pass of [loop] spends in [delay], by the mode it comes from
    and the mode it goes to. *)
Definition blocking_ms (from to : Z) : Z :=
  if to =? 0 then (if (from =? 1) || (from =? 2) then 5 else 0) else 1.

(** The value [SetPowerLevel] hands to [analogWrite] for a stored level. *)
Definition power_display (LaserPower : Z) : option Z :=
  float_to_int
    (F32.mul
       (double_to_float
          (F64.mul (F64.literal 117641 100000)
                   (float_to_double (F32.of_int LaserPower))))
       DisplayMultiplier).

(** The value [SetPulseRate] hands to [analogWrite] for a reading. *)
Definition rate_display (PulseFrequency : Z) : option Z :=
  float_to_int
    (F32.mul (F32.mul (Frequency_of PulseFrequency) (F32.of_int 10))
             DisplayMultiplier).

(** The half-period [SetPulseRate] stores for a reading. *)
Definition half_period (PulseFrequency : Z) : spec_float :=
  F32.div (F32.of_int 500) (Frequency_of PulseFrequency).

Definition in_range (lo hi : Z) (v : option Z) : bool :=
  match v with
  | Some n => (lo <=? n) && (n <=? hi)
  | None => false
  end.


(** The integer handed to [analogWrite], or -1 where the conversion is
    undefined. *)
Definition shown (v : option Z) : Z :=
  match v with
  | Some n => n
  | None => -1
  end.

(** Pushes the projections of a state through the primitives that built it.
    Only to be used on goals where every state sits under a projection. *)
Ltac project :=
  cbn [seq digitalWriteFast analogWrite delay pinMode
       LaserPulseTimer_begin AlarmLEDFlashTimer_begin
       set_env set_LaserPulsePeriod set_OperatingMode
       set_EnableLaserTrigger set_LaserPower set_AlarmState
       SerialOutputFunction DisplayOutput analogRead
       env pins Display LaserPulseTimer AlarmLEDFlashTimer LaserPulsePeriod
       OperatingMode EnableLaserTrigger LaserPower AlarmState millis trace
       fst snd].

(** Same, and flattens the log into [trace s ++ l]. *)
Ltac trace_norm :=
  project; rewrite <- ?app_assoc; cbn [app].

(** Discharges [Forall quiet l] for an explicit [l]. *)
Ltac quiet_tac :=
  repeat (apply Forall_cons || apply Forall_nil);
  unfold quiet; cbn [ev];
  try exact I;
  try (split; let H := fresh "H" in intro H; cbv in H; discriminate H).

(* ------------------------------------------------------------------ *)
(** ** Mode derivation *)

(** C3: whatever the current mode and the switches, alarm bits (1,1) give
    mode 5, (1,0) give mode 4 and (0,0) give mode 3, each without touching the
    state; only (LSB=0, MSB=1) reaches the switches, and then the result is
    the mode the switches ask for. *)
Theorem GetModeFunction_alarm_table (CurrentMode : Z) (s : state) :
  match AlarmLSB (env s), AlarmMSB (env s) with
  | HIGH, HIGH => GetModeFunction CurrentMode s = (5, s)
  | HIGH, LOW => GetModeFunction CurrentMode s = (4, s)
  | LOW, LOW => GetModeFunction CurrentMode s = (3, s)
  | LOW, HIGH =>
      fst (GetModeFunction CurrentMode s)
      = switch_mode (ActionBounce1 (env s)) (ActionBounce2 (env s))
  end.
Proof.
  unfold GetModeFunction, digitalReadFast; simpl.
  destruct (AlarmLSB (env s)), (AlarmMSB (env s)); simpl; try reflexivity.
  destruct (ActionBounce1 (env s)), (ActionBounce2 (env s)); reflexivity.
Qed.

(** C9: with no alarm (LSB=0, MSB=1) switch 1 has priority: LOW on switch 1
    gives mode 0; otherwise LOW on switch 2 gives mode 2; otherwise mode 1. *)
Theorem GetModeFunction_switch_priority (CurrentMode : Z) (s : state) :
  AlarmLSB (env s) = LOW ->
  AlarmMSB (env s) = HIGH ->
  fst (GetModeFunction CurrentMode s)
  = match ActionBounce1 (env s), ActionBounce2 (env s) with
    | LOW, _ => 0
    | HIGH, LOW => 2
    | HIGH, HIGH => 1
    end.
Proof.
  intros Hl Hm.
  unfold GetModeFunction, digitalReadFast; simpl.
  rewrite Hl, Hm; simpl.
  destruct (ActionBounce1 (env s)), (ActionBounce2 (env s)); reflexivity.
Qed.

Lemma GetModeFunction_switch_priority_witness :
  let s := power_on (fun _ => HIGH) (mkInputs LOW HIGH HIGH LOW 0 false) in
  fst (GetModeFunction 1 s) = 2.
Proof.
  exact (GetModeFunction_switch_priority 1
           (power_on (fun _ => HIGH) (mkInputs LOW HIGH HIGH LOW 0 false))
           eq_refl eq_refl).
Defined.

(* ------------------------------------------------------------------ *)
(** ** The pulse generator *)

(** C7: one call of the pulse callback inverts the level of the pulse output
    and drives the ON line HIGH when the gate is 0 and LOW otherwise. *)
Theorem LaserPulseGenerator_toggles_and_gates (s : state) :
  pins (LaserPulseGenerator s) LaserPulsesPin = toggle (pins s LaserPulsesPin)
  /\ pins (LaserPulseGenerator s) LaserONSignalPin
     = (if EnableLaserTrigger s =? 0 then HIGH else LOW)
  /\ trace (LaserPulseGenerator s)
     = trace s ++
       [ at_ms (millis s) (EvWrite LaserPulsesPin (toggle (pins s LaserPulsesPin)));
         at_ms (millis s)
               (EvWrite LaserONSignalPin
                        (if EnableLaserTrigger s =? 0 then HIGH else LOW)) ].
Proof.
  unfold LaserPulseGenerator, digitalReadFast; simpl.
  destruct (pins s LaserPulsesPin); simpl;
    destruct (EnableLaserTrigger s =? 0); simpl;
    repeat split; trace_norm; reflexivity.
Qed.

(* ------------------------------------------------------------------ *)
(** ** The power-level encoder *)

Lemma power_bit_eq (pin w : Z) (s : state) (T : Z) :
  power_bit pin w (s, T)
  = (digitalWriteFast pin (if T >=? w then LOW else HIGH) s,
     if T >=? w then uint8 (T - w) else T).
Proof. unfold power_bit; destruct (T >=? w); reflexivity. Qed.

(** One stage of the cascade on a value below [2^(k+1)]: the comparison is
    bit [k], and what is left is the value without that bit. *)
Lemma bit_step (k T : Z) :
  0 <= k < 8 -> 0 <= T < 2 ^ (k + 1) ->
  (T >=? 2 ^ k) = Z.testbit T k
  /\ (if T >=? 2 ^ k then uint8 (T - 2 ^ k) else T) = T mod 2 ^ k.
Proof.
  intros Hk HT.
  assert (Hp : 0 < 2 ^ k) by (apply Z.pow_pos_nonneg; lia).
  assert (H2 : 2 ^ (k + 1) = 2 * 2 ^ k) by (rewrite Z.pow_add_r; lia).
  assert (H8 : 2 ^ k <= 128).
  { change 128 with (2 ^ 7). apply Z.pow_le_mono_r; lia. }
  rewrite Z.geb_leb.
  destruct (Z.leb_spec (2 ^ k) T) as [Hle | Hlt].
  - split.
    + symmetry. apply Z.testbit_true; [lia |].
      assert (T / 2 ^ k = 1) as ->
        by (symmetry; apply Z.div_unique with (r := T - 2 ^ k); lia).
      reflexivity.
    + unfold uint8. rewrite (Z.mod_small (T - 2 ^ k) 256) by lia.
      apply Z.mod_unique with (q := 1); lia.
  - split.
    + symmetry. apply Z.testbit_false; [lia |].
      rewrite Z.div_small by lia. reflexivity.
    + symmetry. apply Z.mod_small. lia.
Qed.

Lemma mod_pow2_testbit (v k : Z) :
  0 <= k -> Z.testbit (v mod 2 ^ (k + 1)) k = Z.testbit v k.
Proof. intros Hk. apply Z.mod_pow2_bits_low. lia. Qed.

Lemma mod_pow2_mod (v k : Z) :
  0 <= k -> (v mod 2 ^ (k + 1)) mod 2 ^ k = v mod 2 ^ k.
Proof.
  intros Hk. apply Z.mod_mod_divide.
  exists 2. rewrite Z.pow_add_r; lia.
Qed.

(** The level [SetPowerLevel] leaves on the output of bit [k]: stage [k] of
    the cascade sees the dial value reduced modulo [2^(k+1)]. *)
Lemma cascade_stage (v k : Z) :
  0 <= k < 8 ->
  (v mod 2 ^ (k + 1) >=? 2 ^ k) = Z.testbit v k
  /\ (if v mod 2 ^ (k + 1) >=? 2 ^ k
      then uint8 (v mod 2 ^ (k + 1) - 2 ^ k)
      else v mod 2 ^ (k + 1)) = v mod 2 ^ k.
Proof.
  intros Hk.
  destruct (bit_step k (v mod 2 ^ (k + 1))) as [Hb Hr]; [lia | |].
  - apply Z.mod_pos_bound. apply Z.pow_pos_nonneg; lia.
  - split.
    + rewrite Hb. apply mod_pow2_testbit. lia.
    + rewrite Hr. apply mod_pow2_mod. lia.
Qed.

(** One block of the cascade, on the dial value reduced modulo [2 * w]. *)
Lemma power_bit_stage (pin w m k : Z) (s : state) (v : Z) :
  w = 2 ^ k -> m = 2 ^ (k + 1) -> 0 <= k < 8 ->
  power_bit pin w (s, v mod m)
  = (digitalWriteFast pin (if Z.testbit v k then LOW else HIGH) s, v mod w).
Proof.
  intros -> -> Hk. rewrite power_bit_eq.
  destruct (cascade_stage v k Hk) as [Hb Hr].
  rewrite Hr, Hb. reflexivity.
Qed.

Lemma DisplayOutput_LaserPower (x : spec_float) (s : state) :
  LaserPower (DisplayOutput x s) = LaserPower s.
Proof. reflexivity. Qed.

(** [SetPowerLevel] as eight writes whose levels are the bits of the stored
    power level. *)
Lemma SetPowerLevel_unfold (s : state) :
  let v := Dial (env s) in
  let lv (k : Z) := if Z.testbit v k then LOW else HIGH in
  SetPowerLevel s
  = (set_LaserPower v ;;
     (fun s => DisplayOutput
                 (double_to_float
                    (F64.mul (F64.literal 117641 100000)
                             (float_to_double (F32.of_int (LaserPower s))))) s) ;;
     digitalWriteFast LaserPowerBit7Pin (lv 7) ;;
     digitalWriteFast LaserPowerBit6Pin (lv 6) ;;
     digitalWriteFast LaserPowerBit5Pin (lv 5) ;;
     digitalWriteFast LaserPowerBit4Pin (lv 4) ;;
     digitalWriteFast LaserPowerBit3Pin (lv 3) ;;
     digitalWriteFast LaserPowerBit2Pin (lv 2) ;;
     digitalWriteFast LaserPowerBit1Pin (lv 1) ;;
     digitalWriteFast LaserPowerBit0Pin (lv 0)) s.
Proof.
  intros v lv. unfold SetPowerLevel. cbv zeta.
  unfold seq, analogRead. fold v.
  rewrite DisplayOutput_LaserPower.
  change (LaserPower (set_LaserPower v s)) with (v mod 256).
  rewrite (power_bit_stage _ 128 256 7) by (reflexivity || lia).
  rewrite (power_bit_stage _ 64 128 6) by (reflexivity || lia).
  rewrite (power_bit_stage _ 32 64 5) by (reflexivity || lia).
  rewrite (power_bit_stage _ 16 32 4) by (reflexivity || lia).
  rewrite (power_bit_stage _ 8 16 3) by (reflexivity || lia).
  rewrite (power_bit_stage _ 4 8 2) by (reflexivity || lia).
  rewrite (power_bit_stage _ 2 4 1) by (reflexivity || lia).
  rewrite (power_bit_stage _ 1 2 0) by (reflexivity || lia).
  reflexivity.
Qed.

(** C4: with an 8-bit dial reading [v], [SetPowerLevel] leaves the output of
    bit [i] LOW exactly when bit [i] of [v] is 1 and HIGH otherwise, for each
    of the eight bits, and stores [v] in [LaserPower]. *)
Theorem SetPowerLevel_active_low_binary (s : state) (i : Z) :
  0 <= Dial (env s) <= 255 ->
  0 <= i <= 7 ->
  pins (SetPowerLevel s) (LaserPowerBitPin i)
  = (if Z.testbit (Dial (env s)) i then LOW else HIGH)
  /\ LaserPower (SetPowerLevel s) = Dial (env s).
Proof.
  intros Hv Hi.
  rewrite SetPowerLevel_unfold. cbv zeta.
  split.
  - assert (Hc : i = 0 \/ i = 1 \/ i = 2 \/ i = 3 \/ i = 4 \/ i = 5 \/ i = 6 \/ i = 7)
      by lia.
    project.
    destruct Hc as [-> | [-> | [-> | [-> | [-> | [-> | [-> | ->]]]]]]];
      reflexivity.
  - project. unfold uint8. apply Z.mod_small. lia.
Qed.

Lemma SetPowerLevel_active_low_binary_witness :
  let s := power_on (fun _ => HIGH) (mkInputs LOW HIGH HIGH HIGH 165 false) in
  pins (SetPowerLevel s) (LaserPowerBitPin 2) = LOW
  /\ LaserPower (SetPowerLevel s) = 165.
Proof.
  apply (SetPowerLevel_active_low_binary
           (power_on (fun _ => HIGH) (mkInputs LOW HIGH HIGH HIGH 165 false)) 2);
    simpl; lia.
Defined.

(* ------------------------------------------------------------------ *)
(** ** What the encoders leave alone *)

Lemma SetPowerLevel_frame (s : state) :
  exists evs,
    trace (SetPowerLevel s) = trace s ++ evs
    /\ Forall quiet evs
    /\ millis (SetPowerLevel s) = millis s
    /\ EnableLaserTrigger (SetPowerLevel s) = EnableLaserTrigger s
    /\ OperatingMode (SetPowerLevel s) = OperatingMode s
    /\ pins (SetPowerLevel s) LaserONSignalPin = pins s LaserONSignalPin
    /\ pins (SetPowerLevel s) LaserMOSignalPin = pins s LaserMOSignalPin.
Proof.
  rewrite SetPowerLevel_unfold. cbv zeta.
  eexists. split; [trace_norm; reflexivity |].
  split; [quiet_tac |].
  repeat split; reflexivity.
Qed.

Lemma SetPulseRate_frame (s : state) :
  exists evs,
    trace (SetPulseRate s) = trace s ++ evs
    /\ Forall quiet evs
    /\ millis (SetPulseRate s) = millis s
    /\ EnableLaserTrigger (SetPulseRate s) = EnableLaserTrigger s
    /\ OperatingMode (SetPulseRate s) = OperatingMode s
    /\ pins (SetPulseRate s) LaserONSignalPin = pins s LaserONSignalPin
    /\ pins (SetPulseRate s) LaserMOSignalPin = pins s LaserMOSignalPin.
Proof.
  unfold SetPulseRate. cbv zeta.
  eexists. split; [trace_norm; reflexivity |].
  split; [quiet_tac |].
  repeat split; reflexivity.
Qed.

(* ------------------------------------------------------------------ *)
(** ** Mode actions *)

Lemma AlarmActions_eq (Mode : Z) :
  AlarmActions Mode
  = (AlarmLEDFlashTimer_begin 1000000 ;;
     DisplayOutput (F32.of_int 0) ;;
     set_EnableLaserTrigger 0 ;;
     digitalWriteFast LaserONSignalPin HIGH ;;
     delay 1 ;;
     digitalWriteFast LaserMOSignalPin HIGH ;;
     set_AlarmState (alarm_label Mode)).
Proof.
  unfold AlarmActions, alarm_label.
  destruct (Mode =? 3), (Mode =? 4), (Mode =? 5); reflexivity.
Qed.

Lemma DisplayOutput_zero : float_to_int (F32.mul (F32.of_int 0) DisplayMultiplier) = Some 0.
Proof. vm_compute. reflexivity. Qed.

Lemma AlarmActions_shuts_down (Mode : Z) : shuts_down (AlarmActions Mode).
Proof.
  intros s. rewrite AlarmActions_eq.
  exists [ at_ms (millis s) (EvFlashTimerBegin 1000000);
           at_ms (millis s) (EvAnalogWrite DisplayOutputPin (Some 0)) ], [].
  split.
  { trace_norm. rewrite DisplayOutput_zero. reflexivity. }
  split; [quiet_tac |].
  split; [quiet_tac |].
  repeat split; reflexivity.
Qed.

Lemma ModeRunFunction_alarm (Mode : Z) :
  Mode <> 0 -> Mode <> 1 -> Mode <> 2 ->
  ModeRunFunction Mode = AlarmActions Mode.
Proof.
  intros H0 H1 H2. unfold ModeRunFunction.
  destruct (Z.eqb_spec Mode 0); [contradiction |].
  destruct (Z.eqb_spec Mode 1); [contradiction |].
  destruct (Z.eqb_spec Mode 2); [contradiction |].
  destruct (Mode =? 3), (Mode =? 4), (Mode =? 5); reflexivity.
Qed.

(** The shared head of the IDLE and OFF_SET_RATE actions followed by an
    encoder that leaves the enable lines, the gate and the clock alone. *)
Lemma switch_off_then (encoder : state -> state) :
  (forall s,
      exists evs,
        trace (encoder s) = trace s ++ evs
        /\ Forall quiet evs
        /\ millis (encoder s) = millis s
        /\ EnableLaserTrigger (encoder s) = EnableLaserTrigger s
        /\ OperatingMode (encoder s) = OperatingMode s
        /\ pins (encoder s) LaserONSignalPin = pins s LaserONSignalPin
        /\ pins (encoder s) LaserMOSignalPin = pins s LaserMOSignalPin) ->
  shuts_down (set_EnableLaserTrigger 0 ;;
              digitalWriteFast LaserONSignalPin HIGH ;;
              delay 1 ;;
              digitalWriteFast LaserMOSignalPin HIGH ;;
              encoder ;;
              digitalWriteFast ExternalLEDPin LOW).
Proof.
  intros Henc s. unfold seq.
  remember (digitalWriteFast LaserMOSignalPin HIGH
              (delay 1 (digitalWriteFast LaserONSignalPin HIGH
                          (set_EnableLaserTrigger 0 s)))) as S eqn:HS.
  destruct (Henc S) as (evs & Ht & Hq & Hm & Hg & Ho & Hon & Hmo).
  exists [], (evs ++ [at_ms (millis s + 1) (EvWrite ExternalLEDPin LOW)]).
  split.
  { project. rewrite Ht, Hm. subst S. trace_norm.
    rewrite <- ?app_assoc. reflexivity. }
  split; [constructor |].
  split.
  { apply Forall_app. split; [exact Hq | quiet_tac]. }
  project. rewrite Hg, Ho.
  change (pins (digitalWriteFast ExternalLEDPin LOW (encoder S)) LaserONSignalPin)
    with (pins (encoder S) LaserONSignalPin).
  change (pins (digitalWriteFast ExternalLEDPin LOW (encoder S)) LaserMOSignalPin)
    with (pins (encoder S) LaserMOSignalPin).
  rewrite Hon, Hmo. subst S. repeat split; reflexivity.
Qed.

Lemma ModeRunFunction_shuts_down (Mode : Z) :
  Mode <> 0 -> shuts_down (ModeRunFunction Mode).
Proof.
  intros H0.
  destruct (Z.eq_dec Mode 1) as [-> | H1].
  { apply (switch_off_then SetPowerLevel). exact SetPowerLevel_frame. }
  destruct (Z.eq_dec Mode 2) as [-> | H2].
  { apply (switch_off_then SetPulseRate). exact SetPulseRate_frame. }
  rewrite ModeRunFunction_alarm by assumption.
  apply AlarmActions_shuts_down.
Qed.

Lemma ModeRunFunction_OperatingMode (Mode : Z) (s : state) :
  OperatingMode (ModeRunFunction Mode s) = OperatingMode s.
Proof.
  destruct (Z.eq_dec Mode 0) as [-> | H0].
  - change (ModeRunFunction 0 s)
      with (digitalWriteFast ExternalLEDPin HIGH
              (SetPowerLevel
                 (digitalWriteFast LaserONSignalPin LOW
                    (digitalWriteFast LaserMOSignalPin LOW s)))).
    project.
    destruct (SetPowerLevel_frame
                (digitalWriteFast LaserONSignalPin LOW
                   (digitalWriteFast LaserMOSignalPin LOW s)))
      as (_ & _ & _ & _ & _ & Ho & _).
    rewrite Ho. reflexivity.
  - destruct (ModeRunFunction_shuts_down Mode H0 s)
      as (_ & _ & _ & _ & _ & _ & _ & _ & Ho).
    exact Ho.
Qed.

Lemma GetModeFunction_range (CurrentMode : Z) (s : state) :
  0 <= fst (GetModeFunction CurrentMode s) <= 5.
Proof.
  unfold GetModeFunction.
  destruct (level_eqb (digitalReadFast AlarmLSBPin s) HIGH),
           (level_eqb (digitalReadFast AlarmMSBPin s) HIGH),
           (level_eqb (ActionBounce1 (env s)) LOW),
           (level_eqb (ActionBounce2 (env s)) LOW);
    cbn [fst]; lia.
Qed.

(** Unless the result is mode 0, [GetModeFunction] has no effect at all. *)
Lemma GetModeFunction_silent (CurrentMode : Z) (s : state) :
  fst (GetModeFunction CurrentMode s) <> 0 ->
  snd (GetModeFunction CurrentMode s) = s.
Proof.
  unfold GetModeFunction.
  destruct (level_eqb (digitalReadFast AlarmLSBPin s) HIGH),
           (level_eqb (digitalReadFast AlarmMSBPin s) HIGH),
           (level_eqb (ActionBounce1 (env s)) LOW),
           (level_eqb (ActionBounce2 (env s)) LOW);
    cbn [fst snd Z.eqb b2z Z.land negb]; intros H; try reflexivity;
    exfalso; apply H; reflexivity.
Qed.

(** The head of [loop]: the serial report and the heartbeat LED, when the
    Metro is due. *)
Lemma loop_eq (s : state) :
  exists s0 pre,
    loop s
    = ModeRunFunction (uint8 (fst (GetModeFunction (OperatingMode s) s0)))
        (set_OperatingMode (fst (GetModeFunction (OperatingMode s) s0))
           (snd (GetModeFunction (OperatingMode s) s0)))
    /\ trace s0 = trace s ++ pre
    /\ Forall quiet pre
    /\ millis s0 = millis s
    /\ env s0 = env s
    /\ EnableLaserTrigger s0 = EnableLaserTrigger s.
Proof.
  unfold loop.
  destruct (serialMetro (env s)).
  - destruct (level_eqb
                (digitalReadFast InternalLEDPin
                   (SerialOutputFunction (OperatingMode s) s)) HIGH).
    + eexists (digitalWriteFast InternalLEDPin LOW
                 (SerialOutputFunction (OperatingMode s) s)), _.
      split.
      { destruct (GetModeFunction _ _) as [m s1]. reflexivity. }
      split; [trace_norm; reflexivity |].
      split; [quiet_tac |].
      repeat split; reflexivity.
    + eexists (digitalWriteFast InternalLEDPin HIGH
                 (SerialOutputFunction (OperatingMode s) s)), _.
      split.
      { destruct (GetModeFunction _ _) as [m s1]. reflexivity. }
      split; [trace_norm; reflexivity |].
      split; [quiet_tac |].
      repeat split; reflexivity.
  - exists s, [].
    split.
    { destruct (GetModeFunction _ _) as [m s1]. reflexivity. }
    split; [symmetry; apply app_nil_r |].
    split; [constructor |].
    repeat split; reflexivity.
Qed.

(* ------------------------------------------------------------------ *)
(** ** Shutdown ordering *)

(** C5: in a pass of [loop] that ends in a mode other than 0 (IDLE,
    OFF_SET_RATE or an alarm mode) the log of the pass holds, in this order
    and next to each other, the clearing of the gate, the de-assertion of ON,
    a wait of 1 ms and the de-assertion of MO one millisecond after ON;
    nothing else in the pass touches the gate, the two lines or the clock, and
    the pass ends with the gate at 0 and both lines HIGH. *)
Theorem shutdown_ordering (io : inputs) (s : state) :
  OperatingMode (cycle io s) <> 0 ->
  exists pre post,
    trace (cycle io s) = trace s ++ pre ++ shutdown_sequence (millis s) ++ post
    /\ Forall quiet pre
    /\ Forall quiet post
    /\ EnableLaserTrigger (cycle io s) = 0
    /\ pins (cycle io s) LaserONSignalPin = HIGH
    /\ pins (cycle io s) LaserMOSignalPin = HIGH.
Proof.
  unfold cycle. intros Hmode.
  destruct (loop_eq (set_env io s)) as (s0 & pre0 & Hl & Ht0 & Hq0 & Hm0 & _).
  cbn [set_env trace millis OperatingMode] in Ht0, Hm0, Hl.
  rewrite Hl in *. clear Hl.
  pose proof (GetModeFunction_range (OperatingMode s) s0) as Hr.
  pose proof (GetModeFunction_silent (OperatingMode s) s0) as Hs.
  destruct (GetModeFunction (OperatingMode s) s0) as [m s1].
  cbn [fst snd] in *.
  rewrite ModeRunFunction_OperatingMode in Hmode.
  cbn [set_OperatingMode OperatingMode] in Hmode.
  assert (Hu : uint8 m = m) by (unfold uint8; apply Z.mod_small; lia).
  rewrite Hu in *.
  rewrite (Hs Hmode) in *.
  destruct (ModeRunFunction_shuts_down m Hmode (set_OperatingMode m s0))
    as (pre & post & Ht & Hq & Hq' & Hg & Hon & Hmo & _).
  exists (pre0 ++ pre), post.
  split.
  { rewrite Ht. cbn [set_OperatingMode trace millis].
    rewrite Ht0, Hm0, <- !app_assoc. reflexivity. }
  split; [apply Forall_app; split; assumption |].
  repeat split; assumption.
Qed.

Lemma shutdown_ordering_witness :
  let io := mkInputs HIGH LOW LOW HIGH 10 true in
  let s := setup (power_on (fun _ => LOW) io) in
  exists pre post,
    trace (cycle io s) = trace s ++ pre ++ shutdown_sequence (millis s) ++ post
    /\ Forall quiet pre
    /\ Forall quiet post
    /\ EnableLaserTrigger (cycle io s) = 0
    /\ pins (cycle io s) LaserONSignalPin = HIGH
    /\ pins (cycle io s) LaserMOSignalPin = HIGH.
Proof.
  apply (shutdown_ordering (mkInputs HIGH LOW LOW HIGH 10 true)
           (setup (power_on (fun _ => LOW) (mkInputs HIGH LOW LOW HIGH 10 true)))).
  vm_compute. discriminate.
Defined.

(* ------------------------------------------------------------------ *)
(** ** Alarm actions *)

(** C10: running [AlarmActions] twice in a row with the same mode leaves the
    globals, every pin, the display and both timers as one run leaves them
    (only the clock and the log differ); after either, [AlarmState] holds the
    label of the mode, the display is at zero, the gate is 0, ON and MO are
    HIGH and the flasher runs at 1000000 microseconds. *)
Theorem AlarmActions_idempotent (Mode : Z) (s : state) :
  same_outputs (AlarmActions Mode (AlarmActions Mode s)) (AlarmActions Mode s)
  /\ AlarmState (AlarmActions Mode s) = alarm_label Mode
  /\ Display (AlarmActions Mode s) = Some 0
  /\ EnableLaserTrigger (AlarmActions Mode s) = 0
  /\ pins (AlarmActions Mode s) LaserONSignalPin = HIGH
  /\ pins (AlarmActions Mode s) LaserMOSignalPin = HIGH
  /\ AlarmLEDFlashTimer (AlarmActions Mode s) = Some 1000000.
Proof.
  rewrite AlarmActions_eq. unfold same_outputs.
  project. rewrite DisplayOutput_zero.
  repeat split; try reflexivity.
  intros p. destruct (p =? LaserMOSignalPin), (p =? LaserONSignalPin); reflexivity.
Qed.

(* ------------------------------------------------------------------ *)
(** ** The trigger gate *)

Lemma quiet_gate_zero (e : stamped) : quiet e -> gate_zero e.
Proof.
  unfold quiet, gate_zero. intros Hq v Hv. rewrite Hv in Hq. contradiction.
Qed.

Lemma write_gate_zero (t pin : Z) (l : level) : gate_zero (at_ms t (EvWrite pin l)).
Proof. intros v Hv. discriminate Hv. Qed.

Lemma delay_gate_zero (t ms : Z) : gate_zero (at_ms t (EvDelay ms)).
Proof. intros v Hv. discriminate Hv. Qed.

Lemma shutdown_sequence_gate_zero (t : Z) : Forall gate_zero (shutdown_sequence t).
Proof.
  unfold shutdown_sequence.
  repeat (apply Forall_cons || apply Forall_nil);
    intros v Hv; cbn [ev] in Hv; congruence.
Qed.

(** A function that keeps a closed gate closed. *)
Lemma keeps_closed_intro (f : state -> state) (s : state) (evs : list stamped) :
  gate_closed s ->
  trace (f s) = trace s ++ evs ->
  Forall gate_zero evs ->
  EnableLaserTrigger (f s) = 0 ->
  gate_closed (f s).
Proof.
  intros [_ Hs] Ht He Hg. split; [exact Hg |].
  rewrite Ht. apply Forall_app. split; assumption.
Qed.

Lemma LaserPulseGenerator_spec (s : state) :
  pins (LaserPulseGenerator s) LaserPulsesPin = toggle (pins s LaserPulsesPin)
  /\ pins (LaserPulseGenerator s) LaserONSignalPin
     = (if EnableLaserTrigger s =? 0 then HIGH else LOW)
  /\ EnableLaserTrigger (LaserPulseGenerator s) = EnableLaserTrigger s
  /\ trace (LaserPulseGenerator s)
     = trace s ++
       [ at_ms (millis s) (EvWrite LaserPulsesPin (toggle (pins s LaserPulsesPin)));
         at_ms (millis s)
               (EvWrite LaserONSignalPin
                        (if EnableLaserTrigger s =? 0 then HIGH else LOW)) ].
Proof.
  unfold LaserPulseGenerator, digitalReadFast.
  cbn [Z.eqb Pos.eqb LaserPulsesPin AlarmLSBPin AlarmMSBPin].
  destruct (pins s LaserPulsesPin); cbn [level_eqb toggle]; project;
    destruct (EnableLaserTrigger s =? 0);
    repeat split; trace_norm; reflexivity.
Qed.

Lemma LaserPulseGenerator_keeps_closed (s : state) :
  gate_closed s -> gate_closed (LaserPulseGenerator s).
Proof.
  intros Hc.
  destruct (LaserPulseGenerator_spec s) as (_ & _ & Hg & Ht).
  eapply keeps_closed_intro; [exact Hc | exact Ht | | ].
  - repeat (apply Forall_cons || apply Forall_nil); apply write_gate_zero.
  - rewrite Hg. apply Hc.
Qed.

Lemma AlarmLEDFlasher_keeps_closed (s : state) :
  gate_closed s -> gate_closed (AlarmLEDFlasher s).
Proof.
  intros Hc. unfold AlarmLEDFlasher.
  destruct (level_eqb (digitalReadFast ExternalLEDPin s) HIGH);
    (eapply keeps_closed_intro;
     [exact Hc | project; reflexivity
      | repeat (apply Forall_cons || apply Forall_nil); apply write_gate_zero
      | apply Hc ]).
Qed.

Lemma GetModeFunction_keeps_closed (CurrentMode : Z) (s : state) :
  gate_closed s -> gate_closed (snd (GetModeFunction CurrentMode s)).
Proof.
  intros Hc. unfold GetModeFunction.
  destruct (level_eqb (digitalReadFast AlarmLSBPin s) HIGH),
           (level_eqb (digitalReadFast AlarmMSBPin s) HIGH);
    cbn [snd]; try exact Hc.
  match goal with
  | |- context [if negb ?c then _ else _] => destruct (negb c)
  end; [| exact Hc].
  eapply keeps_closed_intro with (f := fun s => _);
    [exact Hc | trace_norm; reflexivity | | apply Hc].
  repeat (apply Forall_cons || apply Forall_nil);
    (apply write_gate_zero || apply delay_gate_zero).
Qed.

Lemma ModeRunFunction_keeps_closed (Mode : Z) (s : state) :
  gate_closed s -> gate_closed (ModeRunFunction Mode s).
Proof.
  intros Hc.
  destruct (Z.eq_dec Mode 0) as [-> | H0].
  - change (ModeRunFunction 0 s)
      with (digitalWriteFast ExternalLEDPin HIGH
              (SetPowerLevel
                 (digitalWriteFast LaserONSignalPin LOW
                    (digitalWriteFast LaserMOSignalPin LOW s)))).
    remember (digitalWriteFast LaserONSignalPin LOW
                (digitalWriteFast LaserMOSignalPin LOW s)) as S eqn:HS.
    destruct (SetPowerLevel_frame S) as (evs & Ht & Hq & Hm & Hg & _).
    eapply keeps_closed_intro with
      (f := fun _ => digitalWriteFast ExternalLEDPin HIGH (SetPowerLevel S));
      [exact Hc | | | ].
    + project. rewrite Ht, Hm. subst S. trace_norm.
      rewrite <- ?app_assoc. reflexivity.
    + apply Forall_cons; [apply write_gate_zero |].
      apply Forall_cons; [apply write_gate_zero |].
      apply Forall_app. split.
      * eapply Forall_impl; [exact quiet_gate_zero | exact Hq].
      * repeat (apply Forall_cons || apply Forall_nil); apply write_gate_zero.
    + project. rewrite Hg. subst S. apply Hc.
  - destruct (ModeRunFunction_shuts_down Mode H0 s)
      as (pre & post & Ht & Hq & Hq' & Hg & _).
    eapply keeps_closed_intro; [exact Hc | exact Ht | | exact Hg].
    apply Forall_app. split.
    { eapply Forall_impl; [exact quiet_gate_zero | exact Hq]. }
    apply Forall_app. split; [apply shutdown_sequence_gate_zero |].
    eapply Forall_impl; [exact quiet_gate_zero | exact Hq'].
Qed.

Lemma cycle_keeps_closed (io : inputs) (s : state) :
  gate_closed s -> gate_closed (cycle io s).
Proof.
  intros Hc. unfold cycle.
  destruct (loop_eq (set_env io s)) as (s0 & pre0 & Hl & Ht0 & Hq0 & _ & _ & Hg0).
  rewrite Hl. apply ModeRunFunction_keeps_closed.
  assert (Hc0 : gate_closed s0).
  { destruct Hc as [Hg Hs]. split.
    - rewrite Hg0. exact Hg.
    - rewrite Ht0. apply Forall_app. split; [exact Hs |].
      eapply Forall_impl; [exact quiet_gate_zero | exact Hq0]. }
  pose proof (GetModeFunction_keeps_closed (OperatingMode (set_env io s)) s0 Hc0)
    as [Hg1 Hs1].
  split; assumption.
Qed.

Lemma setup_closed (p0 : Z -> level) (io : inputs) :
  gate_closed (setup (power_on p0 io)).
Proof.
  split; [reflexivity |].
  unfold setup, power_on. trace_norm.
  repeat (apply Forall_cons || apply Forall_nil);
    intros v Hv; discriminate Hv.
Qed.

(** If every assignment of a log is 0, the gate is 0 after each of its
    prefixes: also between two statements of a pass of [loop]. *)
Lemma gate_after_prefix (tr : list stamped) :
  Forall gate_zero tr -> forall n, gate_after (firstn n tr) = 0.
Proof.
  intros Hall n. unfold gate_after.
  assert (Hpre : Forall gate_zero (firstn n tr)).
  { rewrite <- (firstn_skipn n tr) in Hall.
    apply Forall_app in Hall. apply Hall. }
  revert Hpre. generalize (firstn n tr). clear Hall n tr.
  intros l. induction l as [| e l IH] using rev_ind; intros Hl.
  - reflexivity.
  - rewrite fold_left_app. cbn [fold_left].
    apply Forall_app in Hl. destruct Hl as [Hl He].
    rewrite (IH Hl).
    inversion He as [| e' l' Hz _]; subst.
    destruct (ev e) eqn:Hev; try reflexivity.
    apply (Hz v). exact Hev.
Qed.

Lemma reachable_gate_closed (s : state) : reachable s -> gate_closed s.
Proof.
  induction 1 as [p0 io | s s' _ IH Hstep].
  - apply setup_closed.
  - destruct Hstep as [io s | s _ | s _].
    + apply cycle_keeps_closed; exact IH.
    + apply LaserPulseGenerator_keeps_closed; exact IH.
    + apply AlarmLEDFlasher_keeps_closed; exact IH.
Qed.

(** C2: in every state reachable from power-on through [setup], passes of
    [loop] and timer callbacks, [EnableLaserTrigger] is 0, no entry of the
    log assigns it anything but 0, and it is 0 after every prefix of the log
    (so also inside a pass); hence a call of the pulse callback in such a
    state drives the ON line HIGH. *)
Theorem gate_never_opens (s : state) :
  reachable s ->
  EnableLaserTrigger s = 0
  /\ Forall gate_zero (trace s)
  /\ (forall n, gate_after (firstn n (trace s)) = 0)
  /\ pins (LaserPulseGenerator s) LaserONSignalPin = HIGH
  /\ trace (LaserPulseGenerator s)
     = trace s ++
       [ at_ms (millis s) (EvWrite LaserPulsesPin (toggle (pins s LaserPulsesPin)));
         at_ms (millis s) (EvWrite LaserONSignalPin HIGH) ].
Proof.
  intros Hr. destruct (reachable_gate_closed s Hr) as [Hg Hs].
  destruct (LaserPulseGenerator_spec s) as (_ & Hon & _ & Ht).
  rewrite Hg in Hon, Ht. cbn [Z.eqb] in Hon, Ht.
  split; [exact Hg |].
  split; [exact Hs |].
  split; [apply gate_after_prefix; exact Hs |].
  split; [exact Hon | exact Ht].
Qed.

Lemma gate_never_opens_witness :
  let s := cycle (mkInputs LOW HIGH LOW HIGH 128 false)
             (setup (power_on (fun _ => LOW) (mkInputs LOW HIGH HIGH HIGH 0 false))) in
  EnableLaserTrigger s = 0
  /\ Forall gate_zero (trace s)
  /\ (forall n, gate_after (firstn n (trace s)) = 0)
  /\ pins (LaserPulseGenerator s) LaserONSignalPin = HIGH
  /\ trace (LaserPulseGenerator s)
     = trace s ++
       [ at_ms (millis s) (EvWrite LaserPulsesPin (toggle (pins s LaserPulsesPin)));
         at_ms (millis s) (EvWrite LaserONSignalPin HIGH) ].
Proof.
  apply (gate_never_opens
           (cycle (mkInputs LOW HIGH LOW HIGH 128 false)
              (setup (power_on (fun _ => LOW)
                        (mkInputs LOW HIGH HIGH HIGH 0 false))))).
  apply reach_step with
    (s := setup (power_on (fun _ => LOW) (mkInputs LOW HIGH HIGH HIGH 0 false))).
  - apply reach_setup.
  - apply step_loop.
Defined.

(* ------------------------------------------------------------------ *)
(** ** The start-up sequence *)

Lemma GetModeFunction_on (CurrentMode : Z) (s : state) :
  AlarmLSB (env s) = LOW ->
  AlarmMSB (env s) = HIGH ->
  ActionBounce1 (env s) = LOW ->
  GetModeFunction CurrentMode s
  = (0, if (CurrentMode =? 1) || (CurrentMode =? 2)
        then (digitalWriteFast LaserMOSignalPin LOW ;;
              delay 5 ;;
              digitalWriteFast LaserONSignalPin LOW) s
        else s).
Proof.
  intros Hl Hm H1. unfold GetModeFunction, digitalReadFast.
  cbn [Z.eqb Pos.eqb AlarmLSBPin AlarmMSBPin].
  rewrite Hl, Hm, H1. cbn [level_eqb Z.eqb b2z].
  destruct (CurrentMode =? 1), (CurrentMode =? 2); reflexivity.
Qed.

(** X2: entering mode 0 from IDLE or OFF_SET_RATE: MO is asserted, the sketch
    waits 5 ms, and only then is ON asserted. *)
Lemma start_from_idle_is_sequenced (io : inputs) (s : state) :
  AlarmLSB io = LOW -> AlarmMSB io = HIGH -> ActionBounce1 io = LOW ->
  OperatingMode s = 1 \/ OperatingMode s = 2 ->
  exists pre post,
    trace (cycle io s)
    = trace s ++ pre ++
      [ at_ms (millis s) (EvWrite LaserMOSignalPin LOW);
        at_ms (millis s) (EvDelay 5);
        at_ms (millis s + 5) (EvWrite LaserONSignalPin LOW) ] ++ post
    /\ Forall quiet pre.
Proof.
  intros Hl Hm H1 Hmode. unfold cycle.
  destruct (loop_eq (set_env io s)) as (s0 & pre0 & Heq & Ht0 & Hq0 & Hm0 & He0 & _).
  cbn [set_env trace millis OperatingMode env] in Ht0, Hm0, Heq, He0.
  rewrite Heq. clear Heq.
  rewrite GetModeFunction_on by (rewrite He0; assumption).
  assert (Hc : (OperatingMode s =? 1) || (OperatingMode s =? 2) = true).
  { destruct Hmode as [-> | ->]; reflexivity. }
  rewrite Hc. cbn [fst snd].
  change (ModeRunFunction (uint8 0)) with (ModeRunFunction 0).
  unfold ModeRunFunction. cbn [Z.eqb]. unfold seq.
  match goal with
  | |- context [SetPowerLevel ?S0] => remember S0 as S eqn:HS
  end.
  destruct (SetPowerLevel_frame S) as (evs & Ht & _ & Hms & _).
  exists pre0. eexists.
  split; [| exact Hq0].
  project. rewrite Ht, Hms. subst S. trace_norm.
  rewrite Ht0, Hm0, <- ?app_assoc. cbn [app]. reflexivity.
Qed.

(** X3: entering mode 0 from any other mode (an alarm mode, or the initial
    mode 7): [GetModeFunction] does nothing and [ModeRunFunction] asserts MO
    and ON back to back, at the same clock value. *)
Lemma start_from_other_modes_is_not_sequenced (io : inputs) (s : state) :
  AlarmLSB io = LOW -> AlarmMSB io = HIGH -> ActionBounce1 io = LOW ->
  OperatingMode s <> 1 -> OperatingMode s <> 2 ->
  exists pre post,
    trace (cycle io s)
    = trace s ++ pre ++
      [ at_ms (millis s) (EvWrite LaserMOSignalPin LOW);
        at_ms (millis s) (EvWrite LaserONSignalPin LOW) ] ++ post
    /\ Forall quiet pre.
Proof.
  intros Hl Hm H1 Hn1 Hn2. unfold cycle.
  destruct (loop_eq (set_env io s)) as (s0 & pre0 & Heq & Ht0 & Hq0 & Hm0 & He0 & _).
  cbn [set_env trace millis OperatingMode env] in Ht0, Hm0, Heq, He0.
  rewrite Heq. clear Heq.
  rewrite GetModeFunction_on by (rewrite He0; assumption).
  assert (Hc : (OperatingMode s =? 1) || (OperatingMode s =? 2) = false).
  { destruct (Z.eqb_spec (OperatingMode s) 1); [contradiction |].
    destruct (Z.eqb_spec (OperatingMode s) 2); [contradiction |]. reflexivity. }
  rewrite Hc. cbn [fst snd].
  change (ModeRunFunction (uint8 0)) with (ModeRunFunction 0).
  unfold ModeRunFunction. cbn [Z.eqb]. unfold seq.
  match goal with
  | |- context [SetPowerLevel ?S0] => remember S0 as S eqn:HS
  end.
  destruct (SetPowerLevel_frame S) as (evs & Ht & _ & Hms & _).
  exists pre0. eexists.
  split; [| exact Hq0].
  project. rewrite Ht, Hms. subst S. trace_norm.
  rewrite Ht0, Hm0, <- ?app_assoc. cbn [app]. reflexivity.
Qed.

(** C1 (fails on the sketch): powered up with no alarm and the switch on ON,
    the first pass of [loop] finds mode 7, so [GetModeFunction] skips the
    start-up sequence and [ModeRunFunction] takes MO and ON from HIGH to LOW
    at the same clock value, without the 5 ms wait; the same happens on the
    pass that follows an alarm pass.  Both states are reachable and the
    start-up monitor rejects their logs. *)
Theorem startup_rule_broken_from_mode_7_and_alarm :
  let io_on := mkInputs LOW HIGH LOW HIGH 0 false in
  let io_alarm := mkInputs LOW LOW LOW HIGH 0 false in
  let s := setup (power_on (fun _ => LOW) io_on) in
  let a := cycle io_alarm s in
  (OperatingMode s = 7
   /\ pins s LaserMOSignalPin = HIGH /\ pins s LaserONSignalPin = HIGH
   /\ startup_respected s = true
   /\ reachable (cycle io_on s)
   /\ firstn 2 (skipn (List.length (trace s)) (trace (cycle io_on s)))
      = [ at_ms 0 (EvWrite LaserMOSignalPin LOW);
          at_ms 0 (EvWrite LaserONSignalPin LOW) ]
   /\ pins (cycle io_on s) LaserMOSignalPin = LOW
   /\ pins (cycle io_on s) LaserONSignalPin = LOW
   /\ startup_respected (cycle io_on s) = false)
  /\
  (OperatingMode a = 3
   /\ pins a LaserMOSignalPin = HIGH /\ pins a LaserONSignalPin = HIGH
   /\ startup_respected a = true
   /\ reachable (cycle io_on a)
   /\ firstn 2 (skipn (List.length (trace a)) (trace (cycle io_on a)))
      = [ at_ms 1 (EvWrite LaserMOSignalPin LOW);
          at_ms 1 (EvWrite LaserONSignalPin LOW) ]
   /\ pins (cycle io_on a) LaserMOSignalPin = LOW
   /\ pins (cycle io_on a) LaserONSignalPin = LOW
   /\ startup_respected (cycle io_on a) = false).
Proof.
  intros io_on io_alarm s a.
  assert (Hs : reachable s) by apply reach_setup.
  assert (Ha : reachable a) by (eapply reach_step; [exact Hs | apply step_loop]).
  split.
  - repeat split; try (vm_compute; reflexivity).
    eapply reach_step; [exact Hs | apply step_loop].
  - repeat split; try (vm_compute; reflexivity).
    eapply reach_step; [exact Ha | apply step_loop].
Qed.

(** The same switch position reached through IDLE is accepted by the
    monitor. *)
Example startup_rule_kept_from_idle :
  let io_on := mkInputs LOW HIGH LOW HIGH 0 false in
  let io_idle := mkInputs LOW HIGH HIGH HIGH 0 false in
  let s := setup (power_on (fun _ => LOW) io_on) in
  OperatingMode (cycle io_idle s) = 1
  /\ startup_respected (cycle io_on (cycle io_idle s)) = true.
Proof. vm_compute. split; reflexivity. Qed.

(* ------------------------------------------------------------------ *)
(** ** The display encoder *)

Lemma pow2_pos (k : Z) : 0 <= k -> 0 < 2 ^ k.
Proof. intros Hk. apply Z.pow_pos_nonneg; lia. Qed.

(** The C conversion [(int)x] is the truncation toward zero of the value of
    [x]. *)
Lemma float_to_int_truncates (x : spec_float) : float_to_int x = truncated x.
Proof.
  destruct x as [sg | sg | | sg m e]; try reflexivity.
  unfold float_to_int, truncated, SF2Q, Qtruncate, is_finite.
  cbn [andb].
  assert (Hq : Z.quot (Qnum (if 0 <=? e
                             then inject_Z ((if sg then Z.neg m else Z.pos m) * 2 ^ e)
                             else (if sg then Z.neg m else Z.pos m)
                                  # Z.to_pos (2 ^ (- e))))
                      (Z.pos (Qden (if 0 <=? e
                             then inject_Z ((if sg then Z.neg m else Z.pos m) * 2 ^ e)
                             else (if sg then Z.neg m else Z.pos m)
                                  # Z.to_pos (2 ^ (- e)))))
               = if sg
                 then - (if 0 <=? e then Z.shiftl (Z.pos m) e
                         else Z.shiftr (Z.pos m) (- e))
                 else (if 0 <=? e then Z.shiftl (Z.pos m) e
                       else Z.shiftr (Z.pos m) (- e))).
  { destruct (Z.leb_spec 0 e) as [He | He].
    - cbn [inject_Z Qnum Qden]. rewrite Z.quot_1_r, Z.shiftl_mul_pow2 by lia.
      destruct sg; [| reflexivity].
      change (Z.neg m) with (- Z.pos m). lia.
    - cbn [Qnum Qden].
      rewrite Z2Pos.id by (apply pow2_pos; lia).
      rewrite Z.shiftr_div_pow2 by lia.
      pose proof (pow2_pos (- e)) as Hp.
      destruct sg.
      + change (Z.neg m) with (- Z.pos m).
        rewrite Z.quot_opp_l by lia.
        rewrite Z.quot_div_nonneg by lia. reflexivity.
      + rewrite Z.quot_div_nonneg by lia. reflexivity. }
  rewrite Hq. reflexivity.
Qed.

(** C8 as the sketch has it: [DisplayOutput x] hands [analogWrite] the
    single-precision product [x * DisplayMultiplier] truncated toward zero (not
    rounded to nearest), whatever its size: the value is not clamped to the
    12-bit range of the output, as the reading 4000 shows. *)
Theorem DisplayOutput_truncates_without_clamping (x : spec_float) (s : state) :
  Display (DisplayOutput x s) = truncated (F32.mul x DisplayMultiplier)
  /\ trace (DisplayOutput x s)
     = trace s ++
       [ at_ms (millis s)
               (EvAnalogWrite DisplayOutputPin
                              (truncated (F32.mul x DisplayMultiplier))) ]
  /\ Display (DisplayOutput (F32.of_int 4000) s) = Some 4963.
Proof.
  unfold DisplayOutput. project.
  rewrite !float_to_int_truncates.
  repeat split; reflexivity.
Qed.

(** The claim as worded, with [round] for the conversion, fails at 3.0: the
    product is about 3.72, the sketch writes 3 and rounding gives 4. *)
Lemma DisplayOutput_does_not_round :
  ~ (forall (x : spec_float) (s : state),
        Display (DisplayOutput x s)
        = Some (round_nearest (SF2Q (F32.mul x DisplayMultiplier)))).
Proof.
  intros H.
  specialize (H (F32.of_int 3)
                (power_on (fun _ => LOW) (mkInputs LOW HIGH HIGH HIGH 0 false))).
  vm_compute in H. discriminate H.
Qed.

(* ------------------------------------------------------------------ *)
(** ** The pulse-rate encoder *)

(** A property checked on each of the 256 readings holds for every 8-bit
    reading. *)
Lemma forall_readings (P : Z -> bool) :
  forallb P (map Z.of_nat (List.seq 0 256)) = true ->
  forall r, 0 <= r <= 255 -> P r = true.
Proof.
  intros Hall r Hr.
  rewrite forallb_forall in Hall. apply Hall.
  rewrite <- (Z2Nat.id r) by lia.
  apply in_map, in_seq. lia.
Qed.

Lemma pulse_rate_accurate_all (r : Z) :
  0 <= r <= 255 -> pulse_rate_accurate r = true.
Proof. apply forall_readings. vm_compute. reflexivity. Qed.

(** C6: for an 8-bit reading [r], [SetPulseRate] computes the frequency
    [f = 0.156863 * r + 25] (in floating point, within 4e-6 of the exact
    value; exactly 25 at [r = 0] and within 1e-4 of 65 at [r = 255]), stores
    the half-period [500 / f] (whose product with [f] is within 1e-4 of 500),
    begins the pulse timer with that half-period and hands [f * 10] to
    [DisplayOutput]. *)
Theorem SetPulseRate_mapping (s : state) :
  0 <= Dial (env s) <= 255 ->
  let r := Dial (env s) in
  let f := Frequency_of r in
  let half := F32.div (F32.of_int 500) f in
  LaserPulsePeriod (SetPulseRate s) = half
  /\ LaserPulseTimer (SetPulseRate s) = Some half
  /\ Display (SetPulseRate s)
     = Display (DisplayOutput (F32.mul f (F32.of_int 10)) s)
  /\ trace (SetPulseRate s)
     = trace s ++
       [ at_ms (millis s) (EvPulseTimerBegin half);
         at_ms (millis s)
               (EvAnalogWrite DisplayOutputPin
                  (truncated (F32.mul (F32.mul f (F32.of_int 10))
                                      DisplayMultiplier))) ]
  /\ is_finite f = true
  /\ is_finite half = true
  /\ (Qabs (SF2Q f - exact_frequency r) <= 4 # 1000000)%Q
  /\ (Qabs (SF2Q half * SF2Q f - 500) <= 1 # 10000)%Q
  /\ (SF2Q (Frequency_of 0) == 25)%Q
  /\ (Qabs (SF2Q (Frequency_of 255) - 65) <= 1 # 10000)%Q.
Proof.
  intros Hr r f half.
  assert (Hu : uint8 (analogRead DialInputPin s) = r).
  { unfold uint8, analogRead. apply Z.mod_small. fold r. lia. }
  pose proof (pulse_rate_accurate_all r) as Hacc.
  unfold pulse_rate_accurate in Hacc. fold f in Hacc. fold half in Hacc.
  specialize (Hacc ltac:(unfold r; lia)).
  apply andb_prop in Hacc. destruct Hacc as [Hacc Hprod].
  apply andb_prop in Hacc. destruct Hacc as [Hacc Hfreq].
  apply andb_prop in Hacc. destruct Hacc as [Hff Hfh].
  apply Qle_bool_iff in Hprod. apply Qle_bool_iff in Hfreq.
  unfold SetPulseRate. cbv zeta. rewrite Hu. fold f. fold half.
  project. rewrite !float_to_int_truncates, <- ?app_assoc. cbn [app].
  split; [reflexivity |].
  split; [reflexivity |].
  split; [reflexivity |].
  split; [reflexivity |].
  split; [exact Hff |].
  split; [exact Hfh |].
  split; [exact Hfreq |].
  split; [exact Hprod |].
  split.
  - apply Qeq_bool_iff. vm_compute. reflexivity.
  - apply Qle_bool_iff. vm_compute. reflexivity.
Qed.

Lemma SetPulseRate_mapping_witness :
  let s := power_on (fun _ => LOW) (mkInputs LOW HIGH HIGH LOW 255 false) in
  LaserPulsePeriod (SetPulseRate s) = F32.div (F32.of_int 500) (Frequency_of 255)
  /\ LaserPulseTimer (SetPulseRate s)
     = Some (F32.div (F32.of_int 500) (Frequency_of 255)).
Proof.
  intros s.
  assert (Hr : 0 <= Dial (env s) <= 255) by (cbn; lia).
  destruct (SetPulseRate_mapping s Hr) as (Hp & Ht & _).
  split; [exact Hp | exact Ht].
Defined.

(* ------------------------------------------------------------------ *)
(** ** The structure of a pass *)

Lemma loop_heartbeat (s : state) :
  loop s
  = ModeRunFunction
      (uint8 (fst (GetModeFunction (OperatingMode (heartbeat s)) (heartbeat s))))
      (set_OperatingMode
         (fst (GetModeFunction (OperatingMode (heartbeat s)) (heartbeat s)))
         (snd (GetModeFunction (OperatingMode (heartbeat s)) (heartbeat s)))).
Proof.
  unfold loop, heartbeat.
  destruct (serialMetro (env s)).
  - destruct (level_eqb
                (digitalReadFast InternalLEDPin
                   (SerialOutputFunction (OperatingMode s) s)) HIGH);
      destruct (GetModeFunction _ _); reflexivity.
  - destruct (GetModeFunction _ _); reflexivity.
Qed.

(** The heartbeat touches the on-board LED and the log, nothing else. *)
Lemma heartbeat_frame (s : state) :
  env (heartbeat s) = env s
  /\ (forall p, p <> InternalLEDPin -> pins (heartbeat s) p = pins s p)
  /\ Display (heartbeat s) = Display s
  /\ LaserPulseTimer (heartbeat s) = LaserPulseTimer s
  /\ AlarmLEDFlashTimer (heartbeat s) = AlarmLEDFlashTimer s
  /\ LaserPulsePeriod (heartbeat s) = LaserPulsePeriod s
  /\ OperatingMode (heartbeat s) = OperatingMode s
  /\ EnableLaserTrigger (heartbeat s) = EnableLaserTrigger s
  /\ LaserPower (heartbeat s) = LaserPower s
  /\ AlarmState (heartbeat s) = AlarmState s
  /\ millis (heartbeat s) = millis s
  /\ (serialMetro (env s) = false -> heartbeat s = s).
Proof.
  unfold heartbeat.
  destruct (serialMetro (env s)).
  - destruct (level_eqb
                (digitalReadFast InternalLEDPin
                   (SerialOutputFunction (OperatingMode s) s)) HIGH);
      project; repeat split; try reflexivity; try discriminate;
      intros p Hp; destruct (Z.eqb_spec p InternalLEDPin);
      [contradiction | reflexivity | contradiction | reflexivity].
  - repeat split; reflexivity.
Qed.

Lemma derived_mode_range (io : inputs) : 0 <= derived_mode io <= 5.
Proof.
  unfold derived_mode, switch_mode.
  destruct (AlarmLSB io), (AlarmMSB io), (ActionBounce1 io), (ActionBounce2 io);
    lia.
Qed.

Lemma uint8_derived_mode (io : inputs) : uint8 (derived_mode io) = derived_mode io.
Proof.
  unfold uint8. apply Z.mod_small. pose proof (derived_mode_range io). lia.
Qed.

Lemma GetModeFunction_fst (CurrentMode : Z) (s : state) :
  fst (GetModeFunction CurrentMode s) = derived_mode (env s).
Proof.
  unfold GetModeFunction, derived_mode, switch_mode, digitalReadFast.
  cbn [Z.eqb Pos.eqb AlarmLSBPin AlarmMSBPin].
  destruct (AlarmLSB (env s)), (AlarmMSB (env s)),
           (ActionBounce1 (env s)), (ActionBounce2 (env s)); reflexivity.
Qed.

(** The only effect [GetModeFunction] ever has is the start-up sequence, on
    the way from mode 1 or 2 to mode 0. *)
Lemma GetModeFunction_snd (CurrentMode : Z) (s : state) :
  snd (GetModeFunction CurrentMode s)
  = if (derived_mode (env s) =? 0) && ((CurrentMode =? 1) || (CurrentMode =? 2))
    then digitalWriteFast LaserONSignalPin LOW
           (delay 5 (digitalWriteFast LaserMOSignalPin LOW s))
    else s.
Proof.
  unfold GetModeFunction, derived_mode, switch_mode, digitalReadFast.
  cbn [Z.eqb Pos.eqb AlarmLSBPin AlarmMSBPin].
  destruct (AlarmLSB (env s)), (AlarmMSB (env s)),
           (ActionBounce1 (env s)), (ActionBounce2 (env s));
    cbn [level_eqb Z.eqb b2z Z.land negb andb snd]; try reflexivity;
    destruct (CurrentMode =? 1), (CurrentMode =? 2); reflexivity.
Qed.

(** One pass of [loop], with the mode written as the inputs decide it. *)
Lemma cycle_eq (io : inputs) (s : state) :
  cycle io s
  = ModeRunFunction (derived_mode io)
      (set_OperatingMode (derived_mode io)
         (if (derived_mode io =? 0)
             && ((OperatingMode s =? 1) || (OperatingMode s =? 2))
          then digitalWriteFast LaserONSignalPin LOW
                 (delay 5 (digitalWriteFast LaserMOSignalPin LOW
                             (heartbeat (set_env io s))))
          else heartbeat (set_env io s))).
Proof.
  unfold cycle. rewrite loop_heartbeat.
  destruct (heartbeat_frame (set_env io s)) as (He & _ & _ & _ & _ & _ & Hm & _).
  rewrite GetModeFunction_fst, GetModeFunction_snd, He, Hm.
  cbn [set_env env OperatingMode].
  rewrite uint8_derived_mode. reflexivity.
Qed.

(* ------------------------------------------------------------------ *)
(** ** Start of the sketch *)

(** X1: whatever levels the pins power up with, [setup] leaves the laser off:
    MO and ON de-asserted, power level 0 on the eight active-low lines, the
    pulse line HIGH, the guide beam on, both LEDs off, the pulse timer begun
    at 12.5 microseconds, the flasher not begun, the globals at their initial
    values, no time spent in [delay], and a log that respects the start-up
    rule. *)
Theorem setup_leaves_laser_off (p0 : Z -> level) (io : inputs) :
  let s := setup (power_on p0 io) in
  pins s LaserMOSignalPin = HIGH
  /\ pins s LaserONSignalPin = HIGH
  /\ decode_power (pins s) = 0
  /\ pins s LaserPulsesPin = HIGH
  /\ pins s LaserGuidePin = LOW
  /\ pins s ExternalLEDPin = LOW
  /\ pins s InternalLEDPin = LOW
  /\ (SF2Q (LaserPulsePeriod s) == 25 # 2)%Q
  /\ LaserPulseTimer s = Some (LaserPulsePeriod s)
  /\ AlarmLEDFlashTimer s = None
  /\ OperatingMode s = 7
  /\ EnableLaserTrigger s = 0
  /\ AlarmState s = "NONE"%string
  /\ millis s = 0
  /\ startup_respected s = true.
Proof.
  intros s. subst s. unfold setup, power_on, startup_respected.
  split; [reflexivity |].
  split; [reflexivity |].
  split; [reflexivity |].
  split; [reflexivity |].
  split; [reflexivity |].
  split; [reflexivity |].
  split; [reflexivity |].
  split; [apply Qeq_bool_iff; vm_compute; reflexivity |].
  split; [reflexivity |].
  split; [reflexivity |].
  split; [reflexivity |].
  split; [reflexivity |].
  split; [reflexivity |].
  split; [reflexivity |].
  reflexivity.
Qed.

Lemma start_from_idle_is_sequenced_witness :
  let io := mkInputs LOW HIGH LOW HIGH 0 false in
  let s := cycle (mkInputs LOW HIGH HIGH HIGH 0 false) (setup (power_on (fun _ => LOW) io)) in
  exists pre post,
    trace (cycle io s)
    = trace s ++ pre ++
      [ at_ms (millis s) (EvWrite LaserMOSignalPin LOW);
        at_ms (millis s) (EvDelay 5);
        at_ms (millis s + 5) (EvWrite LaserONSignalPin LOW) ] ++ post
    /\ Forall quiet pre.
Proof.
  intros io s.
  apply (start_from_idle_is_sequenced io s); try reflexivity.
  left. vm_compute. reflexivity.
Defined.

Lemma start_from_other_modes_is_not_sequenced_witness :
  let io := mkInputs LOW HIGH LOW HIGH 0 false in
  let s := cycle (mkInputs HIGH HIGH HIGH HIGH 0 false) (setup (power_on (fun _ => LOW) io)) in
  exists pre post,
    trace (cycle io s)
    = trace s ++ pre ++
      [ at_ms (millis s) (EvWrite LaserMOSignalPin LOW);
        at_ms (millis s) (EvWrite LaserONSignalPin LOW) ] ++ post
    /\ Forall quiet pre.
Proof.
  intros io s.
  apply (start_from_other_modes_is_not_sequenced io s); try reflexivity;
    vm_compute; discriminate.
Defined.

(* ------------------------------------------------------------------ *)
(** ** Reading the power level back from the pins *)

Lemma SetPowerLevel_bit_pin (s : state) (i : Z) :
  0 <= i <= 7 ->
  pins (SetPowerLevel s) (LaserPowerBitPin i)
  = if Z.testbit (Dial (env s)) i then LOW else HIGH.
Proof.
  intros Hi. rewrite SetPowerLevel_unfold. cbv zeta. project.
  assert (Hc : i = 0 \/ i = 1 \/ i = 2 \/ i = 3 \/ i = 4 \/ i = 5 \/ i = 6 \/ i = 7)
    by lia.
  destruct Hc as [-> | [-> | [-> | [-> | [-> | [-> | [-> | ->]]]]]]];
    reflexivity.
Qed.

Lemma bits_sum_byte (w : Z) : 0 <= w <= 255 -> bits_sum w = w.
Proof.
  intros Hw. apply Z.eqb_eq.
  apply (forall_readings (fun w => bits_sum w =? w)); [| exact Hw].
  vm_compute. reflexivity.
Qed.

Lemma bits_sum_mod (v : Z) : bits_sum v = v mod 256.
Proof.
  rewrite <- (bits_sum_byte (v mod 256)).
  - unfold bits_sum. cbn [fold_right].
    change 256 with (2 ^ 8).
    rewrite !Z.mod_pow2_bits_low by lia. reflexivity.
  - pose proof (Z.mod_pos_bound v 256). lia.
Qed.

(** Pins that carry the active-low expansion of [v] decode to [v mod 256]. *)
Lemma decode_power_bits (p : Z -> level) (v : Z) :
  (forall i, 0 <= i <= 7 ->
     p (LaserPowerBitPin i) = if Z.testbit v i then LOW else HIGH) ->
  decode_power p = v mod 256.
Proof.
  intros Hp. rewrite <- bits_sum_mod.
  unfold decode_power, bits_sum. cbn [fold_right].
  rewrite !Hp by lia.
  repeat match goal with
         | |- context [Z.testbit v ?k] => destruct (Z.testbit v k)
         end; reflexivity.
Qed.

(** X4: the eight active-low lines [SetPowerLevel] leaves behind decode to
    the stored power level, which is the dial reading modulo 256: within the
    8-bit range nothing is lost, and a wider reading wraps around. *)
Theorem SetPowerLevel_round_trip (s : state) :
  decode_power (pins (SetPowerLevel s)) = LaserPower (SetPowerLevel s)
  /\ LaserPower (SetPowerLevel s) = Dial (env s) mod 256.
Proof.
  assert (HL : LaserPower (SetPowerLevel s) = Dial (env s) mod 256).
  { rewrite SetPowerLevel_unfold. reflexivity. }
  split; [| exact HL].
  rewrite HL. apply decode_power_bits.
  intros i Hi. apply SetPowerLevel_bit_pin. exact Hi.
Qed.

(* ------------------------------------------------------------------ *)
(** ** What one pass does, mode by mode *)

(** The state a pass hands to [ModeRunFunction], against the state the pass
    started from: only the two enable lines, the on-board LED, the clock and
    the log can differ. *)
Lemma pass_entry (io : inputs) (s : state) (c : bool) :
  let T := if c
           then digitalWriteFast LaserONSignalPin LOW
                  (delay 5 (digitalWriteFast LaserMOSignalPin LOW
                              (heartbeat (set_env io s))))
           else heartbeat (set_env io s) in
  env T = io
  /\ (forall p, p <> LaserMOSignalPin -> p <> LaserONSignalPin ->
                p <> InternalLEDPin -> pins T p = pins s p)
  /\ Display T = Display s
  /\ LaserPulseTimer T = LaserPulseTimer s
  /\ AlarmLEDFlashTimer T = AlarmLEDFlashTimer s
  /\ LaserPulsePeriod T = LaserPulsePeriod s
  /\ EnableLaserTrigger T = EnableLaserTrigger s
  /\ LaserPower T = LaserPower s
  /\ AlarmState T = AlarmState s
  /\ millis T = millis s + (if c then 5 else 0).
Proof.
  destruct (heartbeat_frame (set_env io s))
    as (He & Hp & Hd & Hpt & Hft & Hpp & _ & Hg & Hlp & Ha & Hms & _).
  cbn [set_env env pins Display LaserPulseTimer AlarmLEDFlashTimer
       LaserPulsePeriod EnableLaserTrigger LaserPower AlarmState millis]
    in He, Hp, Hd, Hpt, Hft, Hpp, Hg, Hlp, Ha, Hms.
  destruct c; cbv zeta; project;
    rewrite ?He, ?Hd, ?Hpt, ?Hft, ?Hpp, ?Hg, ?Hlp, ?Ha, ?Hms;
    repeat split; try reflexivity; try lia;
    intros p Hmo Hon Hled.
  - destruct (Z.eqb_spec p LaserONSignalPin); [contradiction |].
    destruct (Z.eqb_spec p LaserMOSignalPin); [contradiction |].
    apply Hp. exact Hled.
  - apply Hp. exact Hled.
Qed.

(** X5: a pass that finds an alarm on the two alarm lines ends in the alarm
    mode of that code whatever the switches and the previous mode are, stores
    the label of the alarm, begins the flasher at one second, puts the display
    at zero, closes the gate, leaves ON and MO de-asserted after a 1 ms pass,
    and leaves the power lines, the stored power level and the pulse timer as
    they were. *)
Theorem alarm_pass (io : inputs) (s : state) :
  AlarmLSB io = HIGH \/ AlarmMSB io = LOW ->
  let s' := cycle io s in
  OperatingMode s'
  = match AlarmLSB io, AlarmMSB io with
    | HIGH, HIGH => 5
    | HIGH, LOW => 4
    | _, _ => 3
    end
  /\ AlarmState s' = alarm_label (OperatingMode s')
  /\ AlarmState s' <> "Reserved Mode"%string
  /\ AlarmLEDFlashTimer s' = Some 1000000
  /\ Display s' = Some 0
  /\ EnableLaserTrigger s' = 0
  /\ pins s' LaserONSignalPin = HIGH
  /\ pins s' LaserMOSignalPin = HIGH
  /\ (forall p, p <> LaserMOSignalPin -> p <> LaserONSignalPin ->
                p <> InternalLEDPin -> pins s' p = pins s p)
  /\ LaserPower s' = LaserPower s
  /\ LaserPulseTimer s' = LaserPulseTimer s
  /\ LaserPulsePeriod s' = LaserPulsePeriod s
  /\ millis s' = millis s + 1.
Proof.
  intros Halarm s'. subst s'. rewrite cycle_eq.
  assert (Hm : derived_mode io
               = match AlarmLSB io, AlarmMSB io with
                 | HIGH, HIGH => 5
                 | HIGH, LOW => 4
                 | _, _ => 3
                 end
               /\ 3 <= derived_mode io <= 5).
  { unfold derived_mode.
    destruct (AlarmLSB io), (AlarmMSB io); destruct Halarm; try discriminate;
      split; (reflexivity || lia). }
  destruct Hm as [Hm Hr]. rewrite <- Hm.
  assert (H0 : (derived_mode io =? 0) = false) by (apply Z.eqb_neq; lia).
  rewrite H0. cbn [andb].
  destruct (pass_entry io s false)
    as (He & Hp & Hd & Hpt & Hft & Hpp & Hg & Hlp & Ha & Hms).
  cbv zeta in He, Hp, Hd, Hpt, Hft, Hpp, Hg, Hlp, Ha, Hms.
  remember (heartbeat (set_env io s)) as T eqn:HT.
  rewrite ModeRunFunction_alarm by lia.
  rewrite AlarmActions_eq. project.
  rewrite DisplayOutput_zero, uint8_derived_mode, Hlp, Hpt, Hpp, Hms.
  split; [reflexivity |].
  split; [reflexivity |].
  split.
  { unfold alarm_label.
    destruct (Z.eqb_spec (derived_mode io) 3); [discriminate |].
    destruct (Z.eqb_spec (derived_mode io) 4); [discriminate |].
    destruct (Z.eqb_spec (derived_mode io) 5); [discriminate | lia]. }
  repeat split; try reflexivity; try lia.
  intros p Hmo Hon Hled.
  destruct (Z.eqb_spec p LaserMOSignalPin); [contradiction |].
  destruct (Z.eqb_spec p LaserONSignalPin); [contradiction |].
  apply Hp; assumption.
Qed.

Lemma alarm_pass_witness :
  let io := mkInputs HIGH HIGH LOW HIGH 77 true in
  let s := setup (power_on (fun _ => LOW) io) in
  OperatingMode (cycle io s) = 5
  /\ AlarmState (cycle io s) = alarm_label (OperatingMode (cycle io s))
  /\ AlarmState (cycle io s) <> "Reserved Mode"%string.
Proof.
  intros io s.
  destruct (alarm_pass io s (or_introl eq_refl)) as (Hm & Hl & Hn & _).
  split; [exact Hm | split; [exact Hl | exact Hn]].
Defined.

Lemma decode_power_ext (p q : Z -> level) :
  (forall i, 0 <= i <= 7 -> p (LaserPowerBitPin i) = q (LaserPowerBitPin i)) ->
  decode_power p = decode_power q.
Proof.
  intros H. unfold decode_power. cbn [fold_right].
  rewrite !H by lia. reflexivity.
Qed.

(** Everything [SetPowerLevel] does, against the state it starts from. *)
Lemma SetPowerLevel_effect (s : state) :
  decode_power (pins (SetPowerLevel s)) = Dial (env s) mod 256
  /\ LaserPower (SetPowerLevel s) = Dial (env s) mod 256
  /\ Display (SetPowerLevel s) = power_display (Dial (env s) mod 256)
  /\ (forall p, (forall i, 0 <= i <= 7 -> p <> LaserPowerBitPin i) ->
                pins (SetPowerLevel s) p = pins s p)
  /\ env (SetPowerLevel s) = env s
  /\ LaserPulseTimer (SetPowerLevel s) = LaserPulseTimer s
  /\ AlarmLEDFlashTimer (SetPowerLevel s) = AlarmLEDFlashTimer s
  /\ LaserPulsePeriod (SetPowerLevel s) = LaserPulsePeriod s
  /\ OperatingMode (SetPowerLevel s) = OperatingMode s
  /\ EnableLaserTrigger (SetPowerLevel s) = EnableLaserTrigger s
  /\ AlarmState (SetPowerLevel s) = AlarmState s
  /\ millis (SetPowerLevel s) = millis s.
Proof.
  split.
  { apply decode_power_bits. intros i Hi. apply SetPowerLevel_bit_pin. exact Hi. }
  rewrite SetPowerLevel_unfold. cbv zeta. project.
  repeat split; try reflexivity.
  intros p Hp.
  pose proof (Hp 0 ltac:(lia)) as H0. pose proof (Hp 1 ltac:(lia)) as H1.
  pose proof (Hp 2 ltac:(lia)) as H2. pose proof (Hp 3 ltac:(lia)) as H3.
  pose proof (Hp 4 ltac:(lia)) as H4. pose proof (Hp 5 ltac:(lia)) as H5.
  pose proof (Hp 6 ltac:(lia)) as H6. pose proof (Hp 7 ltac:(lia)) as H7.
  cbn [LaserPowerBitPin] in H0, H1, H2, H3, H4, H5, H6, H7.
  destruct (Z.eqb_spec p LaserPowerBit0Pin); [contradiction |].
  destruct (Z.eqb_spec p LaserPowerBit1Pin); [contradiction |].
  destruct (Z.eqb_spec p LaserPowerBit2Pin); [contradiction |].
  destruct (Z.eqb_spec p LaserPowerBit3Pin); [contradiction |].
  destruct (Z.eqb_spec p LaserPowerBit4Pin); [contradiction |].
  destruct (Z.eqb_spec p LaserPowerBit5Pin); [contradiction |].
  destruct (Z.eqb_spec p LaserPowerBit6Pin); [contradiction |].
  destruct (Z.eqb_spec p LaserPowerBit7Pin); [contradiction |].
  reflexivity.
Qed.

(** Everything [SetPulseRate] does, against the state it starts from. *)
Lemma SetPulseRate_effect (s : state) :
  LaserPulsePeriod (SetPulseRate s) = half_period (Dial (env s) mod 256)
  /\ LaserPulseTimer (SetPulseRate s) = Some (half_period (Dial (env s) mod 256))
  /\ Display (SetPulseRate s) = rate_display (Dial (env s) mod 256)
  /\ (forall p, pins (SetPulseRate s) p = pins s p)
  /\ env (SetPulseRate s) = env s
  /\ AlarmLEDFlashTimer (SetPulseRate s) = AlarmLEDFlashTimer s
  /\ OperatingMode (SetPulseRate s) = OperatingMode s
  /\ EnableLaserTrigger (SetPulseRate s) = EnableLaserTrigger s
  /\ LaserPower (SetPulseRate s) = LaserPower s
  /\ AlarmState (SetPulseRate s) = AlarmState s
  /\ millis (SetPulseRate s) = millis s.
Proof.
  unfold SetPulseRate. cbv zeta. project.
  repeat split; reflexivity.
Qed.

Lemma ModeRunFunction_0 (s : state) :
  ModeRunFunction 0 s
  = digitalWriteFast ExternalLEDPin HIGH
      (SetPowerLevel
         (digitalWriteFast LaserONSignalPin LOW
            (digitalWriteFast LaserMOSignalPin LOW s))).
Proof. reflexivity. Qed.

Lemma ModeRunFunction_1 (s : state) :
  ModeRunFunction 1 s
  = digitalWriteFast ExternalLEDPin LOW
      (SetPowerLevel
         (digitalWriteFast LaserMOSignalPin HIGH
            (delay 1
               (digitalWriteFast LaserONSignalPin HIGH
                  (set_EnableLaserTrigger 0 s))))).
Proof. reflexivity. Qed.

Lemma ModeRunFunction_2 (s : state) :
  ModeRunFunction 2 s
  = digitalWriteFast ExternalLEDPin LOW
      (SetPulseRate
         (digitalWriteFast LaserMOSignalPin HIGH
            (delay 1
               (digitalWriteFast LaserONSignalPin HIGH
                  (set_EnableLaserTrigger 0 s))))).
Proof. reflexivity. Qed.

Lemma bit_pin_cases (i : Z) :
  0 <= i <= 7 ->
  LaserPowerBitPin i = 6 \/ LaserPowerBitPin i = 7 \/ LaserPowerBitPin i = 8
  \/ LaserPowerBitPin i = 9 \/ LaserPowerBitPin i = 10 \/ LaserPowerBitPin i = 11
  \/ LaserPowerBitPin i = 12 \/ LaserPowerBitPin i = 14.
Proof.
  intros Hi.
  assert (Hc : i = 0 \/ i = 1 \/ i = 2 \/ i = 3 \/ i = 4 \/ i = 5 \/ i = 6 \/ i = 7)
    by lia.
  destruct Hc as [-> | [-> | [-> | [-> | [-> | [-> | [-> | ->]]]]]]];
    cbv; tauto.
Qed.

(** No power line is the external LED or one of the two enable lines. *)
Lemma bit_pin_apart (i : Z) :
  0 <= i <= 7 ->
  LaserPowerBitPin i <> ExternalLEDPin
  /\ LaserPowerBitPin i <> LaserMOSignalPin
  /\ LaserPowerBitPin i <> LaserONSignalPin
  /\ LaserPowerBitPin i <> InternalLEDPin.
Proof.
  intros Hi. pose proof (bit_pin_cases i Hi) as Hc.
  unfold ExternalLEDPin, LaserMOSignalPin, LaserONSignalPin, InternalLEDPin.
  lia.
Qed.



(** X7: a pass with no alarm and both switch lines HIGH ends in mode 1 with
    the gate closed, ON and MO de-asserted, the external LED off, and the dial
    reading (modulo 256) stored, shown on the display and readable on the
    eight power lines; the pulse timer and the alarm record are left alone and
    the pass blocks for 1 ms. *)
Theorem idle_pass (io : inputs) (s : state) :
  AlarmLSB io = LOW -> AlarmMSB io = HIGH ->
  ActionBounce1 io = HIGH -> ActionBounce2 io = HIGH ->
  let s' := cycle io s in
  OperatingMode s' = 1
  /\ EnableLaserTrigger s' = 0
  /\ pins s' LaserONSignalPin = HIGH
  /\ pins s' LaserMOSignalPin = HIGH
  /\ pins s' ExternalLEDPin = LOW
  /\ decode_power (pins s') = Dial io mod 256
  /\ LaserPower s' = Dial io mod 256
  /\ Display s' = power_display (Dial io mod 256)
  /\ AlarmState s' = AlarmState s
  /\ AlarmLEDFlashTimer s' = AlarmLEDFlashTimer s
  /\ LaserPulseTimer s' = LaserPulseTimer s
  /\ LaserPulsePeriod s' = LaserPulsePeriod s
  /\ millis s' = millis s + 1.
Proof.
  intros Hl Hm H1 H2 s'. subst s'. rewrite cycle_eq.
  assert (Hd : derived_mode io = 1).
  { unfold derived_mode. rewrite Hl, Hm, H1, H2. reflexivity. }
  rewrite Hd. cbn [Z.eqb andb].
  destruct (pass_entry io s false)
    as (He & Hp & Hdi & Hpt & Hft & Hpp & Hg & Hlp & Ha & Hms).
  cbv zeta in He, Hp, Hdi, Hpt, Hft, Hpp, Hg, Hlp, Ha, Hms.
  remember (heartbeat (set_env io s)) as T eqn:HT.
  rewrite ModeRunFunction_1.
  remember (digitalWriteFast LaserMOSignalPin HIGH
              (delay 1
                 (digitalWriteFast LaserONSignalPin HIGH
                    (set_EnableLaserTrigger 0 (set_OperatingMode 1 T)))))
    as X eqn:HX.
  destruct (SetPowerLevel_effect X)
    as (Ed & El & Edi & Ep & Ee & Ept & Eft & Epp & Eo & Eg & Ea & Ems).
  assert (HeX : env X = io) by (subst X; project; exact He).
  rewrite HeX in Ed, El, Edi.
  assert (Hoff : forall p,
             p = LaserMOSignalPin \/ p = LaserONSignalPin ->
             forall i, 0 <= i <= 7 -> p <> LaserPowerBitPin i).
  { intros p Hc i Hi. pose proof (bit_pin_cases i Hi).
    unfold LaserMOSignalPin, LaserONSignalPin in Hc. lia. }
  split.
  { project. rewrite Eo. subst X. reflexivity. }
  split.
  { project. rewrite Eg. subst X. reflexivity. }
  split.
  { project. cbn [Z.eqb Pos.eqb LaserONSignalPin ExternalLEDPin].
    rewrite Ep by (apply Hoff; tauto). subst X. reflexivity. }
  split.
  { project. cbn [Z.eqb Pos.eqb LaserMOSignalPin ExternalLEDPin].
    rewrite Ep by (apply Hoff; tauto). subst X. reflexivity. }
  split; [reflexivity |].
  split.
  { rewrite <- Ed. apply decode_power_ext. intros i Hi. project.
    destruct (bit_pin_apart i Hi) as (Hne & _).
    destruct (Z.eqb_spec (LaserPowerBitPin i) ExternalLEDPin);
      [contradiction | reflexivity]. }
  split; [project; exact El |].
  split; [project; exact Edi |].
  project. rewrite Ea, Eft, Ept, Epp, Ems. subst X. project.
  rewrite Ha, Hft, Hpt, Hpp, Hms.
  repeat split; try reflexivity; lia.
Qed.

Lemma idle_pass_witness :
  let io := mkInputs LOW HIGH HIGH HIGH 129 false in
  let s := setup (power_on (fun _ => LOW) io) in
  OperatingMode (cycle io s) = 1
  /\ decode_power (pins (cycle io s)) = Dial io mod 256.
Proof.
  intros io s.
  destruct (idle_pass io s eq_refl eq_refl eq_refl eq_refl)
    as (Hm & _ & _ & _ & _ & Hd & _).
  split; [exact Hm | exact Hd].
Defined.

(** What a write to one pin leaves alone. *)
Lemma digitalWriteFast_fields (pin : Z) (l : level) (s : state) :
  (forall p, pins (digitalWriteFast pin l s) p = if p =? pin then l else pins s p)
  /\ Display (digitalWriteFast pin l s) = Display s
  /\ LaserPulseTimer (digitalWriteFast pin l s) = LaserPulseTimer s
  /\ AlarmLEDFlashTimer (digitalWriteFast pin l s) = AlarmLEDFlashTimer s
  /\ LaserPulsePeriod (digitalWriteFast pin l s) = LaserPulsePeriod s
  /\ OperatingMode (digitalWriteFast pin l s) = OperatingMode s
  /\ EnableLaserTrigger (digitalWriteFast pin l s) = EnableLaserTrigger s
  /\ LaserPower (digitalWriteFast pin l s) = LaserPower s
  /\ AlarmState (digitalWriteFast pin l s) = AlarmState s
  /\ millis (digitalWriteFast pin l s) = millis s.
Proof. repeat split; reflexivity. Qed.

(** X8: a pass with no alarm, switch 1 HIGH and switch 2 LOW ends in mode 2
    with the gate closed, ON and MO de-asserted and the external LED off; the
    half-period of the dial reading (modulo 256) is stored and the pulse timer
    begun again with it, the display shows ten times the frequency, and the
    power lines and the stored power level are left as they were. *)
Theorem rate_pass (io : inputs) (s : state) :
  AlarmLSB io = LOW -> AlarmMSB io = HIGH ->
  ActionBounce1 io = HIGH -> ActionBounce2 io = LOW ->
  let s' := cycle io s in
  OperatingMode s' = 2
  /\ EnableLaserTrigger s' = 0
  /\ pins s' LaserONSignalPin = HIGH
  /\ pins s' LaserMOSignalPin = HIGH
  /\ pins s' ExternalLEDPin = LOW
  /\ LaserPulsePeriod s' = half_period (Dial io mod 256)
  /\ LaserPulseTimer s' = Some (half_period (Dial io mod 256))
  /\ Display s' = rate_display (Dial io mod 256)
  /\ decode_power (pins s') = decode_power (pins s)
  /\ LaserPower s' = LaserPower s
  /\ AlarmState s' = AlarmState s
  /\ AlarmLEDFlashTimer s' = AlarmLEDFlashTimer s
  /\ millis s' = millis s + 1.
Proof.
  intros Hl Hm H1 H2 s'. subst s'. rewrite cycle_eq.
  assert (Hd : derived_mode io = 2).
  { unfold derived_mode. rewrite Hl, Hm, H1, H2. reflexivity. }
  rewrite Hd. cbn [Z.eqb andb].
  destruct (pass_entry io s false)
    as (He & Hp & Hdi & Hpt & Hft & Hpp & Hg & Hlp & Ha & Hms).
  cbv zeta in He, Hp, Hdi, Hpt, Hft, Hpp, Hg, Hlp, Ha, Hms.
  remember (heartbeat (set_env io s)) as T eqn:HT.
  rewrite ModeRunFunction_2.
  remember (digitalWriteFast LaserMOSignalPin HIGH
              (delay 1
                 (digitalWriteFast LaserONSignalPin HIGH
                    (set_EnableLaserTrigger 0 (set_OperatingMode 2 T)))))
    as X eqn:HX.
  destruct (SetPulseRate_effect X)
    as (Epp & Ept & Edi & Ep & Ee & Eft & Eo & Eg & Elp & Ea & Ems).
  destruct (digitalWriteFast_fields ExternalLEDPin LOW (SetPulseRate X))
    as (Fp & Fdi & Fpt & Fft & Fpp & Fo & Fg & Flp & Fa & Fms).
  assert (HeX : env X = io) by (subst X; exact He).
  assert (HoX : OperatingMode X = 2) by (subst X; reflexivity).
  assert (HgX : EnableLaserTrigger X = 0) by (subst X; reflexivity).
  assert (HonX : pins X LaserONSignalPin = HIGH) by (subst X; reflexivity).
  assert (HmoX : pins X LaserMOSignalPin = HIGH) by (subst X; reflexivity).
  assert (HlpX : LaserPower X = LaserPower s) by (subst X; exact Hlp).
  assert (HaX : AlarmState X = AlarmState s) by (subst X; exact Ha).
  assert (HftX : AlarmLEDFlashTimer X = AlarmLEDFlashTimer s)
    by (subst X; exact Hft).
  assert (HmsX : millis X = millis s + 1).
  { subst X. project. lia. }
  assert (HpX : forall i, 0 <= i <= 7 ->
                  pins X (LaserPowerBitPin i) = pins s (LaserPowerBitPin i)).
  { intros i Hi. destruct (bit_pin_apart i Hi) as (Hled & Hmo & Hon & Hint).
    subst X. project.
    destruct (Z.eqb_spec (LaserPowerBitPin i) LaserMOSignalPin); [contradiction |].
    destruct (Z.eqb_spec (LaserPowerBitPin i) LaserONSignalPin); [contradiction |].
    apply Hp; assumption. }
  clear HX HT.
  rewrite Fo, Fg, !Fp, Fpp, Fpt, Fdi, Flp, Fa, Fft, Fms.
  rewrite Eo, Eg, !Ep, Epp, Ept, Edi, Elp, Ea, Eft, Ems.
  rewrite HeX, HoX, HgX, HonX, HmoX, HlpX, HaX, HftX, HmsX.
  repeat split; try reflexivity.
  apply decode_power_ext. intros i Hi.
  destruct (bit_pin_apart i Hi) as (Hled & _).
  rewrite Fp, Ep.
  destruct (Z.eqb_spec (LaserPowerBitPin i) ExternalLEDPin); [contradiction |].
  apply HpX. exact Hi.
Qed.

Lemma rate_pass_witness :
  let io := mkInputs LOW HIGH HIGH LOW 255 false in
  let s := setup (power_on (fun _ => LOW) io) in
  OperatingMode (cycle io s) = 2
  /\ LaserPulseTimer (cycle io s) = Some (half_period (Dial io mod 256)).
Proof.
  intros io s.
  destruct (rate_pass io s eq_refl eq_refl eq_refl eq_refl)
    as (Hm & _ & _ & _ & _ & _ & Ht & _).
  split; [exact Hm | exact Ht].
Defined.

(* ------------------------------------------------------------------ *)
(** ** The mode, the alarm record and the clock across a pass *)

Lemma delay_fields (ms : Z) (s : state) :
  (forall p, pins (delay ms s) p = pins s p)
  /\ AlarmLEDFlashTimer (delay ms s) = AlarmLEDFlashTimer s
  /\ AlarmState (delay ms s) = AlarmState s
  /\ millis (delay ms s) = millis s + ms.
Proof. repeat split; reflexivity. Qed.

(** What [ModeRunFunction] does to the alarm record and to the clock. *)
Lemma ModeRunFunction_record (Mode : Z) (s : state) :
  0 <= Mode ->
  AlarmState (ModeRunFunction Mode s)
  = (if Mode <=? 2 then AlarmState s else alarm_label Mode)
  /\ AlarmLEDFlashTimer (ModeRunFunction Mode s)
     = (if Mode <=? 2 then AlarmLEDFlashTimer s else Some 1000000)
  /\ millis (ModeRunFunction Mode s) = millis s + (if Mode =? 0 then 0 else 1).
Proof.
  intros Hm.
  destruct (Z.eq_dec Mode 0) as [-> | H0].
  { rewrite ModeRunFunction_0.
    destruct (digitalWriteFast_fields ExternalLEDPin HIGH
                (SetPowerLevel
                   (digitalWriteFast LaserONSignalPin LOW
                      (digitalWriteFast LaserMOSignalPin LOW s))))
      as (_ & _ & _ & Fft & _ & _ & _ & _ & Fa & Fms).
    destruct (SetPowerLevel_effect
                (digitalWriteFast LaserONSignalPin LOW
                   (digitalWriteFast LaserMOSignalPin LOW s)))
      as (_ & _ & _ & _ & _ & _ & Eft & _ & _ & _ & Ea & Ems).
    rewrite Fft, Fa, Fms, Eft, Ea, Ems. project.
    repeat split; try reflexivity. cbn [Z.eqb]. lia. }
  destruct (Z.eq_dec Mode 1) as [-> | H1].
  { rewrite ModeRunFunction_1.
    remember (digitalWriteFast LaserMOSignalPin HIGH
                (delay 1
                   (digitalWriteFast LaserONSignalPin HIGH
                      (set_EnableLaserTrigger 0 s)))) as X eqn:HX.
    destruct (digitalWriteFast_fields ExternalLEDPin LOW (SetPowerLevel X))
      as (_ & _ & _ & Fft & _ & _ & _ & _ & Fa & Fms).
    destruct (SetPowerLevel_effect X)
      as (_ & _ & _ & _ & _ & _ & Eft & _ & _ & _ & Ea & Ems).
    rewrite Fft, Fa, Fms, Eft, Ea, Ems. subst X. project.
    repeat split; reflexivity. }
  destruct (Z.eq_dec Mode 2) as [-> | H2].
  { rewrite ModeRunFunction_2.
    remember (digitalWriteFast LaserMOSignalPin HIGH
                (delay 1
                   (digitalWriteFast LaserONSignalPin HIGH
                      (set_EnableLaserTrigger 0 s)))) as X eqn:HX.
    destruct (digitalWriteFast_fields ExternalLEDPin LOW (SetPulseRate X))
      as (_ & _ & _ & Fft & _ & _ & _ & _ & Fa & Fms).
    destruct (SetPulseRate_effect X)
      as (_ & _ & _ & _ & _ & Eft & _ & _ & _ & Ea & Ems).
    rewrite Fft, Fa, Fms, Eft, Ea, Ems. subst X. project.
    repeat split; reflexivity. }
  rewrite ModeRunFunction_alarm by assumption.
  rewrite AlarmActions_eq. project.
  destruct (Z.leb_spec Mode 2); [lia |].
  destruct (Z.eqb_spec Mode 0); [lia |].
  repeat split; reflexivity.
Qed.

(** The mode a pass ends in depends on the inputs of the pass alone. *)
Lemma cycle_OperatingMode (io : inputs) (s : state) :
  OperatingMode (cycle io s) = derived_mode io.
Proof.
  rewrite cycle_eq, ModeRunFunction_OperatingMode. project.
  apply uint8_derived_mode.
Qed.

Lemma cycle_record (io : inputs) (s : state) :
  AlarmState (cycle io s)
  = (if derived_mode io <=? 2 then AlarmState s else alarm_label (derived_mode io))
  /\ AlarmLEDFlashTimer (cycle io s)
     = (if derived_mode io <=? 2 then AlarmLEDFlashTimer s else Some 1000000)
  /\ millis (cycle io s)
     = millis s + blocking_ms (OperatingMode s) (derived_mode io).
Proof.
  rewrite cycle_eq.
  pose proof (derived_mode_range io) as Hr.
  destruct (pass_entry io s
              ((derived_mode io =? 0)
               && ((OperatingMode s =? 1) || (OperatingMode s =? 2))))
    as (_ & _ & _ & _ & Hft & _ & _ & _ & Ha & Hms).
  cbv zeta in Hft, Ha, Hms.
  remember (if (derived_mode io =? 0)
               && ((OperatingMode s =? 1) || (OperatingMode s =? 2))
            then digitalWriteFast LaserONSignalPin LOW
                   (delay 5 (digitalWriteFast LaserMOSignalPin LOW
                               (heartbeat (set_env io s))))
            else heartbeat (set_env io s)) as T eqn:HT.
  destruct (ModeRunFunction_record (derived_mode io)
              (set_OperatingMode (derived_mode io) T)) as (Ra & Rft & Rms);
    [lia |].
  rewrite Ra, Rft, Rms. project. rewrite Ha, Hft, Hms.
  split; [reflexivity |]. split; [reflexivity |].
  unfold blocking_ms.
  destruct (derived_mode io =? 0); cbn [andb];
    destruct ((OperatingMode s =? 1) || (OperatingMode s =? 2)); lia.
Qed.

(** X9: the time a pass spends blocked in [delay] is fixed by the mode it
    comes from and the mode it ends in: 5 ms on the way from mode 1 or 2 to
    mode 0, nothing on any other pass that ends in mode 0, and 1 ms on every
    pass that ends in another mode; never more than 5 ms. *)
Theorem pass_blocking_time (io : inputs) (s : state) :
  millis (cycle io s)
  = millis s + blocking_ms (OperatingMode s) (OperatingMode (cycle io s))
  /\ 0 <= millis (cycle io s) - millis s <= 5.
Proof.
  destruct (cycle_record io s) as (_ & _ & Hms).
  rewrite cycle_OperatingMode, Hms.
  split; [reflexivity |].
  unfold blocking_ms.
  destruct (derived_mode io =? 0);
    destruct ((OperatingMode s =? 1) || (OperatingMode s =? 2)); lia.
Qed.

Lemma callbacks_keep_record (s : state) :
  (OperatingMode (LaserPulseGenerator s) = OperatingMode s
   /\ AlarmState (LaserPulseGenerator s) = AlarmState s
   /\ AlarmLEDFlashTimer (LaserPulseGenerator s) = AlarmLEDFlashTimer s)
  /\ (OperatingMode (AlarmLEDFlasher s) = OperatingMode s
      /\ AlarmState (AlarmLEDFlasher s) = AlarmState s
      /\ AlarmLEDFlashTimer (AlarmLEDFlasher s) = AlarmLEDFlashTimer s).
Proof.
  unfold LaserPulseGenerator, AlarmLEDFlasher.
  destruct (level_eqb (digitalReadFast LaserPulsesPin s) HIGH),
           (level_eqb (digitalReadFast ExternalLEDPin s) HIGH);
    project; destruct (EnableLaserTrigger s =? 0); repeat split; reflexivity.
Qed.




(** X11: no step clears an alarm record: once a label other than ["NONE"] is
    stored and the flasher runs, every pass of [loop] (also one that finds no
    alarm any more) and every timer callback leaves a label other than
    ["NONE"] and the flasher running at one second. *)
Theorem alarm_record_is_never_cleared (s s' : state) :
  step s s' ->
  AlarmState s <> "NONE"%string ->
  AlarmLEDFlashTimer s = Some 1000000 ->
  AlarmState s' <> "NONE"%string /\ AlarmLEDFlashTimer s' = Some 1000000.
Proof.
  intros Hstep Hlab Hft.
  destruct (callbacks_keep_record s) as ((_ & Pa & Pft) & (_ & Fa & Fft)).
  destruct Hstep as [io s | s _ | s _].
  - destruct (cycle_record io s) as (Ca & Cft & _).
    rewrite Ca, Cft.
    destruct (Z.leb_spec (derived_mode io) 2); [split; assumption |].
    split; [| reflexivity].
    unfold alarm_label.
    destruct (derived_mode io =? 3); [discriminate |].
    destruct (derived_mode io =? 4); [discriminate |].
    destruct (derived_mode io =? 5); discriminate.
  - rewrite Pa, Pft. split; assumption.
  - rewrite Fa, Fft. split; assumption.
Qed.

Lemma alarm_record_is_never_cleared_witness :
  let io_alarm := mkInputs LOW LOW HIGH HIGH 0 false in
  let io_idle := mkInputs LOW HIGH HIGH HIGH 0 false in
  let s := cycle io_alarm (setup (power_on (fun _ => LOW) io_alarm)) in
  AlarmState (cycle io_idle s) <> "NONE"%string
  /\ AlarmLEDFlashTimer (cycle io_idle s) = Some 1000000.
Proof.
  intros io_alarm io_idle s.
  apply (alarm_record_is_never_cleared s (cycle io_idle s)).
  - apply step_loop.
  - vm_compute. discriminate.
  - vm_compute. reflexivity.
Defined.

(* ------------------------------------------------------------------ *)
(** ** A second pass with the same inputs *)









(* ------------------------------------------------------------------ *)
(** ** The two encoders over the whole dial *)

(** A relation that holds between neighbours holds along the whole range. *)
Lemma chain (A : Type) (R : A -> A -> Prop) (g : Z -> A) (lo hi : Z) :
  (forall x y z, R x y -> R y z -> R x z) ->
  (forall r, lo <= r < hi -> R (g r) (g (r + 1))) ->
  forall a b, lo <= a < b -> b <= hi -> R (g a) (g b).
Proof.
  intros Htrans Hadj a b Hab Hb.
  replace b with (a + 1 + Z.of_nat (Z.to_nat (b - a - 1)))
    by (rewrite Z2Nat.id; lia).
  assert (Hn : a + 1 + Z.of_nat (Z.to_nat (b - a - 1)) <= hi)
    by (rewrite Z2Nat.id; lia).
  revert Hn. generalize (Z.to_nat (b - a - 1)) as n.
  induction n as [| n IH]; intros Hn.
  - rewrite Z.add_0_r. apply Hadj. lia.
  - apply Htrans with (y := g (a + 1 + Z.of_nat n)).
    + apply IH. lia.
    + replace (a + 1 + Z.of_nat (S n)) with (a + 1 + Z.of_nat n + 1) by lia.
      apply Hadj. lia.
Qed.

Lemma power_display_checked (r : Z) :
  0 <= r <= 255 ->
  in_range 0 372 (power_display r)
  && (shown (power_display r) <=? shown (power_display (Z.min 255 (r + 1))))
  = true.
Proof.
  apply (forall_readings
           (fun r => in_range 0 372 (power_display r)
                     && (shown (power_display r)
                         <=? shown (power_display (Z.min 255 (r + 1)))))).
  vm_compute. reflexivity.
Qed.

Lemma rate_display_checked (r : Z) :
  0 <= r <= 255 ->
  in_range 310 806 (rate_display r)
  && (shown (rate_display r) <=? shown (rate_display (Z.min 255 (r + 1))))
  = true.
Proof.
  apply (forall_readings
           (fun r => in_range 310 806 (rate_display r)
                     && (shown (rate_display r)
                         <=? shown (rate_display (Z.min 255 (r + 1)))))).
  vm_compute. reflexivity.
Qed.

Lemma in_range_shown (lo hi : Z) (v : option Z) :
  in_range lo hi v = true -> v = Some (shown v) /\ lo <= shown v <= hi.
Proof.
  destruct v as [n |]; cbn [in_range shown]; [| discriminate].
  intros H. apply andb_prop in H. destruct H as [H1 H2].
  apply Z.leb_le in H1. apply Z.leb_le in H2. split; [reflexivity | lia].
Qed.

Lemma shown_monotone (f : Z -> option Z) :
  (forall r, 0 <= r <= 255 ->
     (shown (f r) <=? shown (f (Z.min 255 (r + 1)))) = true) ->
  forall a b, 0 <= a <= b -> b <= 255 -> shown (f a) <= shown (f b).
Proof.
  intros Hadj a b Hab Hb.
  destruct (Z.eq_dec a b) as [-> | Hne]; [lia |].
  apply (chain Z Z.le (fun r => shown (f r)) 0 255);
    [intros x y z; apply Z.le_trans | | lia | lia].
  intros r Hr. specialize (Hadj r ltac:(lia)).
  rewrite Z.min_r in Hadj by lia. apply Z.leb_le. exact Hadj.
Qed.

(** X13: over the 8-bit range of the dial the value either encoder hands to
    [analogWrite] is defined, grows with the reading and stays inside the
    12-bit range of the output, so the missing clamp of [DisplayOutput] is
    never reached: 0 to 372 for the power level, 310 to 806 for the pulse
    rate. *)
Theorem display_stays_in_dac_range (s1 s2 : state) :
  0 <= Dial (env s1) <= Dial (env s2) ->
  Dial (env s2) <= 255 ->
  (exists n1 n2,
      Display (SetPowerLevel s1) = Some n1
      /\ Display (SetPowerLevel s2) = Some n2
      /\ 0 <= n1 <= n2 /\ n2 <= 372)
  /\ (exists m1 m2,
         Display (SetPulseRate s1) = Some m1
         /\ Display (SetPulseRate s2) = Some m2
         /\ 310 <= m1 <= m2 /\ m2 <= 806).
Proof.
  intros H1 H2.
  destruct (SetPowerLevel_effect s1) as (_ & _ & P1 & _).
  destruct (SetPowerLevel_effect s2) as (_ & _ & P2 & _).
  destruct (SetPulseRate_effect s1) as (_ & _ & R1 & _).
  destruct (SetPulseRate_effect s2) as (_ & _ & R2 & _).
  rewrite Z.mod_small in P1, P2, R1, R2 by lia.
  rewrite P1, P2, R1, R2.
  split.
  - pose proof (power_display_checked (Dial (env s1)) ltac:(lia)) as C1.
    pose proof (power_display_checked (Dial (env s2)) ltac:(lia)) as C2.
    apply andb_prop in C1. apply andb_prop in C2.
    destruct C1 as [C1 _]. destruct C2 as [C2 _].
    apply in_range_shown in C1. apply in_range_shown in C2.
    destruct C1 as [E1 B1]. destruct C2 as [E2 B2].
    exists (shown (power_display (Dial (env s1)))),
           (shown (power_display (Dial (env s2)))).
    split; [exact E1 |]. split; [exact E2 |].
    assert (Hmono : shown (power_display (Dial (env s1)))
                    <= shown (power_display (Dial (env s2)))).
    { apply (shown_monotone power_display); try lia.
      intros r Hr. pose proof (power_display_checked r Hr) as C.
      apply andb_prop in C. apply C. }
    lia.
  - pose proof (rate_display_checked (Dial (env s1)) ltac:(lia)) as C1.
    pose proof (rate_display_checked (Dial (env s2)) ltac:(lia)) as C2.
    apply andb_prop in C1. apply andb_prop in C2.
    destruct C1 as [C1 _]. destruct C2 as [C2 _].
    apply in_range_shown in C1. apply in_range_shown in C2.
    destruct C1 as [E1 B1]. destruct C2 as [E2 B2].
    exists (shown (rate_display (Dial (env s1)))),
           (shown (rate_display (Dial (env s2)))).
    split; [exact E1 |]. split; [exact E2 |].
    assert (Hmono : shown (rate_display (Dial (env s1)))
                    <= shown (rate_display (Dial (env s2)))).
    { apply (shown_monotone rate_display); try lia.
      intros r Hr. pose proof (rate_display_checked r Hr) as C.
      apply andb_prop in C. apply C. }
    lia.
Qed.

Lemma display_stays_in_dac_range_witness :
  let s1 := power_on (fun _ => LOW) (mkInputs LOW HIGH HIGH HIGH 0 false) in
  let s2 := power_on (fun _ => LOW) (mkInputs LOW HIGH HIGH HIGH 255 false) in
  (exists n1 n2,
      Display (SetPowerLevel s1) = Some n1
      /\ Display (SetPowerLevel s2) = Some n2
      /\ 0 <= n1 <= n2 /\ n2 <= 372)
  /\ (exists m1 m2,
         Display (SetPulseRate s1) = Some m1
         /\ Display (SetPulseRate s2) = Some m2
         /\ 310 <= m1 <= m2 /\ m2 <= 806).
Proof.
  intros s1 s2.
  apply (display_stays_in_dac_range s1 s2); cbn; lia.
Defined.

Lemma half_period_checked (r : Z) :
  0 <= r <= 255 ->
  is_finite (half_period r)
  && Qle_bool (769 # 100) (SF2Q (half_period r))
  && Qle_bool (SF2Q (half_period r)) 20
  && ((r =? 255)
      || negb (Qle_bool (SF2Q (half_period r)) (SF2Q (half_period (r + 1)))))
  = true.
Proof.
  apply (forall_readings
           (fun r =>
              is_finite (half_period r)
              && Qle_bool (769 # 100) (SF2Q (half_period r))
              && Qle_bool (SF2Q (half_period r)) 20
              && ((r =? 255)
                  || negb (Qle_bool (SF2Q (half_period r))
                                    (SF2Q (half_period (r + 1))))))).
  vm_compute. reflexivity.
Qed.

Lemma half_period_bounds (r : Z) :
  0 <= r <= 255 ->
  is_finite (half_period r) = true
  /\ (769 # 100 <= SF2Q (half_period r))%Q
  /\ (SF2Q (half_period r) <= 20)%Q.
Proof.
  intros Hr. pose proof (half_period_checked r Hr) as C.
  apply andb_prop in C. destruct C as [C _].
  apply andb_prop in C. destruct C as [C Hhi].
  apply andb_prop in C. destruct C as [Hfin Hlo].
  apply Qle_bool_iff in Hlo. apply Qle_bool_iff in Hhi.
  split; [exact Hfin |]. split; assumption.
Qed.

Lemma half_period_step (r : Z) :
  0 <= r < 255 ->
  (SF2Q (half_period (r + 1)) < SF2Q (half_period r))%Q.
Proof.
  intros Hr. pose proof (half_period_checked r ltac:(lia)) as C.
  apply andb_prop in C. destruct C as [_ C].
  destruct (Z.eqb_spec r 255); [lia |]. cbn [orb] in C.
  apply Qnot_le_lt. intros Hle. apply Qle_bool_iff in Hle.
  rewrite Hle in C. discriminate C.
Qed.

(** X14: over the 8-bit range of the dial the half-period [SetPulseRate]
    stores is a finite number between 7.69 and 20 microseconds, and a higher
    reading always gives a strictly shorter half-period. *)
Theorem half_period_range_and_order (s1 s2 : state) :
  0 <= Dial (env s1) < Dial (env s2) ->
  Dial (env s2) <= 255 ->
  is_finite (LaserPulsePeriod (SetPulseRate s1)) = true
  /\ is_finite (LaserPulsePeriod (SetPulseRate s2)) = true
  /\ (769 # 100 <= SF2Q (LaserPulsePeriod (SetPulseRate s2)))%Q
  /\ (SF2Q (LaserPulsePeriod (SetPulseRate s2))
      < SF2Q (LaserPulsePeriod (SetPulseRate s1)))%Q
  /\ (SF2Q (LaserPulsePeriod (SetPulseRate s1)) <= 20)%Q
  /\ LaserPulseTimer (SetPulseRate s1) = Some (LaserPulsePeriod (SetPulseRate s1)).
Proof.
  intros H1 H2.
  destruct (SetPulseRate_effect s1) as (P1 & T1 & _).
  destruct (SetPulseRate_effect s2) as (P2 & _).
  rewrite Z.mod_small in P1, T1, P2 by lia.
  rewrite T1, P1, P2.
  destruct (half_period_bounds (Dial (env s1)) ltac:(lia)) as (F1 & _ & Hi1).
  destruct (half_period_bounds (Dial (env s2)) ltac:(lia)) as (F2 & Lo2 & _).
  split; [exact F1 |]. split; [exact F2 |]. split; [exact Lo2 |].
  split; [| split; [exact Hi1 | reflexivity]].
  apply (chain spec_float (fun x y => (SF2Q y < SF2Q x)%Q) half_period 0 255);
    [ | | lia | lia].
  - intros x y z Hxy Hyz. apply Qlt_trans with (y := SF2Q y); assumption.
  - intros r Hr. apply half_period_step. exact Hr.
Qed.

Lemma half_period_range_and_order_witness :
  let s1 := power_on (fun _ => LOW) (mkInputs LOW HIGH HIGH LOW 0 false) in
  let s2 := power_on (fun _ => LOW) (mkInputs LOW HIGH HIGH LOW 255 false) in
  (SF2Q (LaserPulsePeriod (SetPulseRate s2))
   < SF2Q (LaserPulsePeriod (SetPulseRate s1)))%Q.
Proof.
  intros s1 s2.
  assert (H1 : 0 <= Dial (env s1) < Dial (env s2)) by (cbn; lia).
  assert (H2 : Dial (env s2) <= 255) by (cbn; lia).
  destruct (half_period_range_and_order s1 s2 H1 H2) as (_ & _ & _ & Hlt & _).
  exact Hlt.
Defined.

(* ------------------------------------------------------------------ *)
(** ** The two timer callbacks *)


(** X16: a call of the pulse callback writes the pulse line and the ON line
    and nothing else: MO, the power lines, both LEDs, every global and the
    clock are left alone; and after the first call the outputs repeat with
    period two, the square wave of the pulse train. *)
Theorem LaserPulseGenerator_touches_two_lines (s : state) :
  (forall p, p <> LaserPulsesPin -> p <> LaserONSignalPin ->
             pins (LaserPulseGenerator s) p = pins s p)
  /\ env (LaserPulseGenerator s) = env s
  /\ Display (LaserPulseGenerator s) = Display s
  /\ LaserPulseTimer (LaserPulseGenerator s) = LaserPulseTimer s
  /\ AlarmLEDFlashTimer (LaserPulseGenerator s) = AlarmLEDFlashTimer s
  /\ LaserPulsePeriod (LaserPulseGenerator s) = LaserPulsePeriod s
  /\ OperatingMode (LaserPulseGenerator s) = OperatingMode s
  /\ EnableLaserTrigger (LaserPulseGenerator s) = EnableLaserTrigger s
  /\ LaserPower (LaserPulseGenerator s) = LaserPower s
  /\ AlarmState (LaserPulseGenerator s) = AlarmState s
  /\ millis (LaserPulseGenerator s) = millis s
  /\ same_outputs
       (LaserPulseGenerator (LaserPulseGenerator (LaserPulseGenerator s)))
       (LaserPulseGenerator s).
Proof.
  assert (Hread : forall x, digitalReadFast LaserPulsesPin x = pins x LaserPulsesPin)
    by reflexivity.
  unfold LaserPulseGenerator, same_outputs. rewrite !Hread.
  destruct (pins s LaserPulsesPin) eqn:Hp17; cbn [level_eqb]; project;
    destruct (EnableLaserTrigger s =? 0) eqn:Hg;
    rewrite ?Hread; project;
    change (LaserPulsesPin =? LaserONSignalPin) with false;
    change (LaserPulsesPin =? LaserPulsesPin) with true;
    cbn [level_eqb]; project; rewrite ?Hg; rewrite ?Hread; project;
    change (LaserPulsesPin =? LaserONSignalPin) with false;
    change (LaserPulsesPin =? LaserPulsesPin) with true;
    cbn [level_eqb]; project; rewrite ?Hg;
    (repeat split; try reflexivity; intros p; intros; project;
     destruct (Z.eqb_spec p LaserONSignalPin);
     destruct (Z.eqb_spec p LaserPulsesPin);
     solve [reflexivity | contradiction]).
Qed.





(* ------------------------------------------------------------------ *)
(** ** The debug report *)

Lemma ModeRunFunction_tail (Mode : Z) (s : state) :
  (exists post, trace (ModeRunFunction Mode s) = trace s ++ post)
  /\ pins (ModeRunFunction Mode s) InternalLEDPin = pins s InternalLEDPin.
Proof.
  assert (Hoff : forall i, 0 <= i <= 7 -> InternalLEDPin <> LaserPowerBitPin i).
  { intros i Hi. destruct (bit_pin_apart i Hi) as (_ & _ & _ & H). congruence. }
  destruct (Z.eq_dec Mode 0) as [-> | H0].
  { rewrite ModeRunFunction_0.
    match goal with
    | |- context [SetPowerLevel ?S0] =>
        destruct (digitalWriteFast_fields ExternalLEDPin HIGH (SetPowerLevel S0))
          as (Fp & _);
        destruct (SetPowerLevel_effect S0) as (_ & _ & _ & Ep & _);
        destruct (SetPowerLevel_frame S0) as (evs & Ht & _ & Hms & _)
    end.
    split.
    - eexists. project. rewrite Ht, Hms. trace_norm.
      rewrite <- ?app_assoc. reflexivity.
    - rewrite Fp, Ep by exact Hoff. reflexivity. }
  split.
  { destruct (ModeRunFunction_shuts_down Mode H0 s) as (pre & post & Ht & _).
    eexists. exact Ht. }
  destruct (Z.eq_dec Mode 1) as [-> | H1].
  { rewrite ModeRunFunction_1.
    match goal with
    | |- context [SetPowerLevel ?S0] =>
        destruct (digitalWriteFast_fields ExternalLEDPin LOW (SetPowerLevel S0))
          as (Fp & _);
        destruct (SetPowerLevel_effect S0) as (_ & _ & _ & Ep & _)
    end.
    rewrite Fp, Ep by exact Hoff. reflexivity. }
  destruct (Z.eq_dec Mode 2) as [-> | H2].
  { rewrite ModeRunFunction_2.
    match goal with
    | |- context [SetPulseRate ?S0] =>
        destruct (digitalWriteFast_fields ExternalLEDPin LOW (SetPulseRate S0))
          as (Fp & _);
        destruct (SetPulseRate_effect S0) as (_ & _ & _ & Ep & _)
    end.
    rewrite Fp, Ep. reflexivity. }
  rewrite ModeRunFunction_alarm by assumption.
  rewrite AlarmActions_eq. reflexivity.
Qed.

(** X18: when the serial Metro is due, a pass starts by logging the debug
    report with the alarm label, the power level and the mode as the previous
    pass left them (the mode is reported before [GetModeFunction] renews it)
    and inverts the on-board LED; when it is not due the on-board LED is left
    alone.  Nothing else in the pass touches that LED. *)
Theorem debug_report_shows_the_previous_mode (io : inputs) (s : state) :
  pins (cycle io s) InternalLEDPin
  = (if serialMetro io then toggle (pins s InternalLEDPin)
     else pins s InternalLEDPin)
  /\ exists post,
       trace (cycle io s)
       = trace s ++
         (if serialMetro io
          then [ at_ms (millis s)
                       (EvSerial (AlarmState s) (LaserPower s) (OperatingMode s));
                 at_ms (millis s)
                       (EvWrite InternalLEDPin (toggle (pins s InternalLEDPin))) ]
          else []) ++ post.
Proof.
  rewrite cycle_eq.
  destruct (ModeRunFunction_tail (derived_mode io)
              (set_OperatingMode (derived_mode io)
                 (if (derived_mode io =? 0)
                     && ((OperatingMode s =? 1) || (OperatingMode s =? 2))
                  then digitalWriteFast LaserONSignalPin LOW
                         (delay 5 (digitalWriteFast LaserMOSignalPin LOW
                                     (heartbeat (set_env io s))))
                  else heartbeat (set_env io s))))
    as ((post & Ht) & Hp).
  rewrite Hp, Ht. clear Hp Ht.
  assert (Hhb : pins (heartbeat (set_env io s)) InternalLEDPin
                = (if serialMetro io then toggle (pins s InternalLEDPin)
                   else pins s InternalLEDPin)
                /\ trace (heartbeat (set_env io s))
                   = trace s ++
                     (if serialMetro io
                      then [ at_ms (millis s)
                                   (EvSerial (AlarmState s) (LaserPower s)
                                             (OperatingMode s));
                             at_ms (millis s)
                                   (EvWrite InternalLEDPin
                                            (toggle (pins s InternalLEDPin))) ]
                      else [])
                /\ millis (heartbeat (set_env io s)) = millis s).
  { unfold heartbeat. cbn [set_env env].
    destruct (serialMetro io).
    - change (digitalReadFast InternalLEDPin
                (SerialOutputFunction (OperatingMode (set_env io s)) (set_env io s)))
        with (pins s InternalLEDPin).
      destruct (pins s InternalLEDPin); cbn [level_eqb toggle];
        repeat split; trace_norm; reflexivity.
    - repeat split; cbn [set_env trace]; try reflexivity.
      symmetry. apply app_nil_r. }
  destruct Hhb as (Hp & Ht & Hms).
  destruct ((derived_mode io =? 0)
            && ((OperatingMode s =? 1) || (OperatingMode s =? 2))).
  - split.
    + project. exact Hp.
    + eexists. trace_norm. rewrite Ht, Hms, <- !app_assoc. reflexivity.
  - split.
    + project. exact Hp.
    + eexists. project. rewrite Ht, <- !app_assoc. reflexivity.
Qed.
